(** * CrossExamine: a voice question-answering demo over deposition transcripts

    Shallow embedding of [vector_store.py], [transcribe_voice_openai.py] and
    [app.py].  The Python code is sequential glue around a file system, the
    Streamlit session and three external services, so it is modelled as
    state-passing functions over a [World] with an exception result.  The
    services themselves (speech-to-text, text-to-speech, the langchain
    splitter, retriever and retrieval chain) are fields of an environment
    record: their code is not part of the repository. *)

From Stdlib Require Import Strings.Byte Strings.Ascii NArith ZArith Lia.
From Stdlib Require Strings.String.
From stdpp Require Import gmap strings list.

(** ** Python values used by the code *)

(** The exceptions that the modelled code can raise. *)
Inductive Exn :=
  | FileNotFoundError (path : string)
  | ValueError                      (* tuple unpacking of the wrong length *)
  | KeyError (key : option string)  (* dict subscript on a missing key *)
  | ServiceError (msg : string).    (* raised inside a library or service *)

Inductive Result (A : Type) :=
  | Ok (a : A)
  | Raise (e : Exn).
Arguments Ok {A} a.
Arguments Raise {A} e.

(** [str(x)] as used by an f-string on a value that may be [None]. *)
Definition py_str (x : option string) : string :=
  match x with
  | Some s => s
  | None => "None"
  end.

(** Truth value of a [str]. *)
Definition str_truthy (s : string) : bool :=
  match s with
  | EmptyString => false
  | String _ _ => true
  end.

(** [s.endswith(suffix)]: some tail of [s] is [suffix]. *)
Fixpoint endswith (s suffix : string) : bool :=
  if String.eqb s suffix then true
  else match s with
       | EmptyString => false
       | String _ s' => endswith s' suffix
       end.

(** [s.removesuffix(suffix)], [None] when [s] does not end with it. *)
Fixpoint remove_suffix (s suffix : string) : option string :=
  if String.eqb s suffix then Some EmptyString
  else match s with
       | EmptyString => None
       | String c s' => String c <$> remove_suffix s' suffix
       end.

(** [a, b = xs]: unpacking into two targets needs exactly two items. *)
Definition unpack2 {A : Type} (xs : list A) : Result (A * A) :=
  match xs with
  | [a; b] => Ok (a, b)
  | _ => Raise ValueError
  end.

(** A [dict] with string keys keeps its insertion order: an association
    list, read by [dict_get] (the subscript [d[k]]) and [dict_keys]. *)
Definition dict := list (string * string).

Definition dict_keys (d : dict) : list string := d.*1.

Fixpoint dict_get (d : dict) (k : option string) : Result string :=
  match d with
  | [] => Raise (KeyError k)
  | (k', v) :: d' =>
      if decide (k = Some k') then Ok v else dict_get d' k
  end.

(** ** Base64 (the [base64.b64encode] call of [convert_audio_to_base64])

    RFC 4648 section 4: three octets form a 24-bit group that is read as
    four 6-bit indices into the standard alphabet; a final group of one or
    two octets is padded with [=]. *)

Definition b64_alphabet : list ascii :=
  String.list_ascii_of_string
    "ABCDEFGHIJKLMNOPQRSTUVWXYZabcdefghijklmnopqrstuvwxyz0123456789+/".

Definition b64_pad : ascii := "="%char.

Definition b64_char (n : N) : ascii := nth (N.to_nat n) b64_alphabet b64_pad.

Fixpoint index_from (c : ascii) (l : list ascii) (i : N) : option N :=
  match l with
  | [] => None
  | x :: l' => if Ascii.eqb x c then Some i else index_from c l' (N.succ i)
  end.

Definition b64_index (c : ascii) : option N := index_from c b64_alphabet 0.

Definition group24 (a b c : N) : N := (a * 65536 + b * 256 + c)%N.

Definition sextet (g : N) (i : N) : N := ((g / 64 ^ (3 - i)) mod 64)%N.

Fixpoint b64encode (bs : list byte) : list ascii :=
  match bs with
  | [] => []
  | [a] =>
      let g := group24 (Byte.to_N a) 0 0 in
      [b64_char (sextet g 0); b64_char (sextet g 1); b64_pad; b64_pad]
  | [a; b] =>
      let g := group24 (Byte.to_N a) (Byte.to_N b) 0 in
      [b64_char (sextet g 0); b64_char (sextet g 1); b64_char (sextet g 2);
       b64_pad]
  | a :: b :: c :: rest =>
      let g := group24 (Byte.to_N a) (Byte.to_N b) (Byte.to_N c) in
      b64_char (sextet g 0) :: b64_char (sextet g 1) :: b64_char (sextet g 2)
        :: b64_char (sextet g 3) :: b64encode rest
  end.

(** The decoder of the round trip ([base64.b64decode]): groups of four
    characters, padding accepted in the last group only. *)
Definition unsextets (s1 s2 s3 s4 : N) : N :=
  (s1 * 262144 + s2 * 4096 + s3 * 64 + s4)%N.

Definition octet (g : N) (i : N) : option byte :=
  Byte.of_N ((g / 256 ^ (2 - i)) mod 256)%N.

Definition decode_quad (c1 c2 c3 c4 : ascii) : option (list byte) :=
  s1 ← b64_index c1;
  s2 ← b64_index c2;
  if Ascii.eqb c3 b64_pad then
    if Ascii.eqb c4 b64_pad then
      a ← octet (unsextets s1 s2 0 0) 0; Some [a]
    else None
  else
    s3 ← b64_index c3;
    if Ascii.eqb c4 b64_pad then
      let g := unsextets s1 s2 s3 0 in
      a ← octet g 0; b ← octet g 1; Some [a; b]
    else
      s4 ← b64_index c4;
      let g := unsextets s1 s2 s3 s4 in
      a ← octet g 0; b ← octet g 1; c ← octet g 2; Some [a; b; c].

Fixpoint b64decode_chars (cs : list ascii) : option (list byte) :=
  match cs with
  | [] => Some []
  | c1 :: c2 :: c3 :: c4 :: rest =>
      if Ascii.eqb c4 b64_pad then
        match rest with
        | [] => decode_quad c1 c2 c3 c4
        | _ :: _ => None
        end
      else
        bs ← decode_quad c1 c2 c3 c4;
        tl ← b64decode_chars rest;
        Some (bs ++ tl)
  | _ => None
  end.

(** [b64encode(data).decode('utf-8')]: the characters are ASCII, so the
    decoded [str] has the same characters. *)
Definition b64encode_str (data : list byte) : string :=
  String.string_of_list_ascii (b64encode data).

Definition b64decode (s : string) : option (list byte) :=
  b64decode_chars (String.list_ascii_of_string s).

(** ** The world the program runs in *)

(** Files are addressed by the path the code uses, relative to the working
    directory ([os.path.join(os.getcwd(), p)] names the same file as [p]).
    Paths are taken verbatim: no [..] or [//] normalisation. *)
Abbreviation FS := (gmap string (list byte)).

(** Items of the [chat_history] list of [run_chatbot]: a [HumanMessage]
    object, or the bare answer [str] that the code appends after it. *)
Inductive HistoryItem :=
  | HumanMessage (content : string)
  | PlainAnswer (text : string).

(** What the program does to the outside, in order. *)
Inductive Event :=
  | EvHeader (text : string)                        (* st.header *)
  | EvSelectbox (label : string) (options : list string)
  | EvTextInput (label : string)                    (* st.text_input *)
  | EvFileUploader (label : string) (file_type : string)
                                                    (* st.file_uploader *)
  | EvButton (label : string)                       (* st.button *)
  | EvRecorder (audio : option (list byte))         (* audio_recorder(...) *)
  | EvAudioWidget (audio : list byte)               (* st.audio *)
  | EvTranscribe (audio : list byte)   (* client.audio.transcriptions.create *)
  | EvInvoke (input : string) (chat_history : list HistoryItem)
                                                    (* rag_chain.invoke *)
  | EvSpeech (voice : string) (input : string) (* client.audio.speech...create *)
  | EvLogAppend (role text : string)       (* conversation_history.append *)
  | EvMarkdown (body : string) (unsafe_allow_html : bool).   (* st.markdown *)

Record World := mkWorld {
  fs : FS;
  (** [st.session_state['conversation_history']], [None] while unset. *)
  session_state : option (list (string * string));
  trace : list Event;
}.

Definition with_fs (f : FS) (w : World) : World :=
  mkWorld f (session_state w) (trace w).

Definition with_session (s : option (list (string * string))) (w : World)
  : World :=
  mkWorld (fs w) s (trace w).

Definition emit (e : Event) (w : World) : World :=
  mkWorld (fs w) (session_state w) (trace w ++ [e]).

(** A statement of the program: it may change the world and either returns
    or raises; what it did before raising stays done. *)
Definition M (A : Type) : Type := World → Result A * World.

Definition ret {A} (a : A) : M A := λ w, (Ok a, w).

Definition raise {A} (e : Exn) : M A := λ w, (Raise e, w).

Definition bind {A B} (m : M A) (k : A → M B) : M B :=
  λ w, match m w with
       | (Ok a, w') => k a w'
       | (Raise e, w') => (Raise e, w')
       end.

Definition lift {A} (r : Result A) : M A := λ w, (r, w).

Definition log (e : Event) : M unit := λ w, (Ok tt, emit e w).

Declare Scope prog_scope.
Delimit Scope prog_scope with prog.
Notation "x <- m ;; k" := (bind m (λ x, k))
  (at level 100, m at next level, right associativity) : prog_scope.
Notation "m ;; k" := (bind m (λ _, k))
  (at level 100, right associativity) : prog_scope.
Local Open Scope prog_scope.

(** [for x in xs: body x]. *)
Fixpoint for_each {A} (xs : list A) (body : A → M unit) : M unit :=
  match xs with
  | [] => ret tt
  | x :: xs' => body x ;; for_each xs' body
  end.

(** *** File system calls *)

(** [with open(path, 'wb') as f: f.write(data)]. *)
Definition write_file (path : string) (data : list byte) : M unit :=
  λ w, (Ok tt, with_fs (<[path := data]> (fs w)) w).

(** [open(path, 'rb').read()]. *)
Definition read_file (path : string) : M (list byte) :=
  λ w, match fs w !! path with
       | Some data => (Ok data, w)
       | None => (Raise (FileNotFoundError path), w)
       end.

Definition os_path_exists (path : string) : M bool :=
  λ w, (Ok (bool_decide (is_Some (fs w !! path))), w).

(** [os.remove] raises on a missing file. *)
Definition os_remove (path : string) : M unit :=
  λ w, match fs w !! path with
       | Some _ => (Ok tt, with_fs (delete path (fs w)) w)
       | None => (Raise (FileNotFoundError path), w)
       end.

(** The entry that a file [key] contributes to the listing of [dir]: the
    first component of its path below [dir]. *)
Fixpoint first_component (s : string) : string :=
  match s with
  | EmptyString => EmptyString
  | String c s' =>
      if Ascii.eqb c "/" then EmptyString else String c (first_component s')
  end.

Fixpoint strip_prefix (p s : string) : option string :=
  match p, s with
  | EmptyString, _ => Some s
  | String a p', String b s' =>
      if Ascii.eqb a b then strip_prefix p' s' else None
  | String _ _, EmptyString => None
  end.

Definition entry_of (dir key : string) : option string :=
  rest ← strip_prefix dir key;
  let name := first_component rest in
  if str_truthy name then Some name else None.

(** [os.listdir(dir)], for a directory that exists; the order is the file
    system's. *)
Definition listdir (dir : string) (files : FS) : list string :=
  remove_dups (omap (entry_of dir) (map_to_list files).*1).

Definition os_listdir (dir : string) : M (list string) :=
  λ w, (Ok (listdir dir (fs w)), w).

(** *** Streamlit session state and widgets *)

(** [st.session_state.get('conversation_history', [])]. *)
Definition session_get : M (list (string * string)) :=
  λ w, (Ok (default [] (session_state w)), w).

(** [st.session_state['conversation_history'] = value]. *)
Definition session_set (value : list (string * string)) : M unit :=
  λ w, (Ok tt, with_session (Some value) w).

(** [lst.append(item)] on the list obtained from [session_get]: when the
    key was set, that list is the stored object itself, so the stored
    value changes with it. *)
Definition list_append (lst : list (string * string)) (item : string * string)
  : M (list (string * string)) :=
  λ w, let lst' := lst ++ [item] in
       let w' := emit (EvLogAppend item.1 item.2) w in
       (Ok lst',
        match session_state w with
        | Some _ => with_session (Some lst') w'
        | None => w'
        end).

(** [st.selectbox(label, options)]: the entry the user picked; with no
    usable pick, the first entry; [None] without options. *)
Definition picked (options : list string) (pick : nat) : option string :=
  match options !! pick with
  | Some o => Some o
  | None => head options
  end.

Definition selectbox (label : string) (options : list string) (pick : nat)
  : M (option string) :=
  log (EvSelectbox label options) ;;
  ret (picked options pick).

(** ** Objects handed to the libraries *)

(** A langchain [Document]: its text and the [source] entry of its
    metadata. *)
Record Document := mkDocument {
  page_content : string;
  source : string;
}.

(** The argument of [BM25Retriever.from_documents]: the code passes a list
    of documents on one path and a single document on the other. *)
Inductive DocsArg :=
  | DocList (docs : list Document)
  | OneDoc (doc : Document).

Record ChatOpenAI := mkChatOpenAI {
  model_name : string;
  temperature : Z;
}.

Record ConversationSummaryBufferMemory := mkMemory {
  memory_key : string;
  return_messages : bool;
  memory_llm : ChatOpenAI;
  output_key : string;
}.

Inductive SystemPrompt := ContextualizeQ | WitnessQA.

Inductive PromptPart :=
  | SystemPart (prompt : SystemPrompt)
  | MessagesPlaceholder (variable : string)
  | HumanPart (template : string).

Definition ChatPromptTemplate := list PromptPart.

(** [create_stuff_documents_chain(llm, qa_prompt)]. *)
Record DocumentChain := mkDocumentChain {
  qa_llm : ChatOpenAI;
  qa_prompt_of : ChatPromptTemplate;
}.

(** [create_history_aware_retriever(llm, retriever, prompt)] and
    [create_retrieval_chain(history_aware_retriever, chain)]: the chain
    object keeps what it was built from. *)
Record HistoryAwareRetriever (R : Type) := mkHistoryAware {
  har_llm : ChatOpenAI;
  har_retriever : R;
  har_prompt : ChatPromptTemplate;
}.
Arguments mkHistoryAware {R}.

Record RetrievalChain (R : Type) := mkRetrievalChain {
  chain_retriever : HistoryAwareRetriever R;
  chain_answer : DocumentChain;
}.
Arguments mkRetrievalChain {R}.

(** ** The environment: services and library code outside the repository *)
Record Env := mkEnv {
  (** the type of [BM25Retriever] objects *)
  Retriever : Type;
  (** [client.audio.transcriptions.create]: given the audio read from the
      file, a transcript or an error; the call blocks, and the files may
      have been touched by the time it returns *)
  transcriptions_create : FS → list byte → Result string * FS;
  (** [client.audio.speech.with_streaming_response.create(model, voice,
      input)]: the audio that [stream_to_file] writes *)
  speech_create : string → string → string → Result (list byte);
  (** [TextLoader]'s decoding of a file into text *)
  decode_text : list byte → Result string;
  (** [text_splitter.split_documents] *)
  split_documents : list Document → list Document;
  (** [BM25Retriever.from_documents] *)
  from_documents : DocsArg → Result Retriever;
  (** [retriever.invoke(query)] on a built retriever *)
  retrieve : Retriever → string → list Document;
  (** [rag_chain.invoke({"input": .., "chat_history": ..})["answer"] *)
  rag_invoke :
    RetrievalChain Retriever → string → list HistoryItem → Result string;
  (** the summarising model of the memory object *)
  summarize : ChatOpenAI → list HistoryItem → string;
  (** the text extraction inside the [read] module *)
  pdf_to_text : list byte → Result (list byte);
}.

(** ** vector_store.py *)

Section VectorStore.
Context (env : Env).

(** [TextLoader(path).load()]. *)
Definition text_loader_load (path : string) : M (list Document) :=
  data <- read_file path ;;
  text <- lift (decode_text env data) ;;
  ret [mkDocument text path].

(** The path [read] writes for a PDF path: same base name, [.txt]. *)
Definition txt_path_of (pdf_path : string) : string :=
  default pdf_path (remove_suffix pdf_path ".pdf") +:+ ".txt".

(** Modelled from the spec: the [read] module (function [read], the PDF
    extractor) is imported by vector_store.py but is not among the
    sources.  Spec 4.1 and 6: given PDF paths, it writes for each one a
    plain-text file at the derived path next to it (same base name,
    [.txt] extension); a PDF that cannot be parsed raises and leaves no
    partial output. *)
Definition read (pdf_paths : list string) : M unit :=
  for_each pdf_paths (λ pdf_path,
    pdf <- read_file pdf_path ;;
    text <- lift (pdf_to_text env pdf) ;;
    write_file (txt_path_of pdf_path) text).

Definition create_new_collection_streamlit
    (collection_name_str pdf_file : string) : M (list Document) :=
  read [pdf_file +:+ ".pdf"] ;;
  documents <- text_loader_load (pdf_file +:+ ".txt") ;;
  let splits := split_documents env documents in
  ret splits.

Definition load_BM25Retriever (filepath : option string)
  : M (Retriever env) :=
  documents <- text_loader_load ("data/" +:+ py_str filepath) ;;
  let splits := split_documents env documents in
  lift (from_documents env (DocList splits)).
End VectorStore.

(** ** transcribe_voice_openai.py *)

Section TranscribeVoice.
Context (env : Env).

(** The blocking call to the speech-to-text service. *)
Definition call_transcriptions_create (audio_file : list byte) : M string :=
  λ w, let w1 := emit (EvTranscribe audio_file) w in
       let '(r, fs') := transcriptions_create env (fs w1) audio_file in
       (r, with_fs fs' w1).

Definition record_and_transcribe (audio_bytes : list byte) : M string :=
  let filename := "Question.wav" in
  write_file filename audio_bytes ;;
  audio_file <- read_file filename ;;
  transcript <- call_transcriptions_create audio_file ;;
  file_exists <- os_path_exists filename ;;
  (if file_exists : bool then os_remove filename else ret tt) ;;
  ret transcript.

(** A [Raise] of [speech_create] is a request that fails before any audio
    arrives: the file is then not opened.  A stream that breaks off while
    [stream_to_file] is writing is not covered by this model. *)
Definition create_output_speech (response_text voice : string) : M unit :=
  log (EvSpeech voice response_text) ;;
  audio <- lift (speech_create env "tts-1" voice response_text) ;;
  write_file "speech.wav" audio.

Definition convert_audio_to_base64 (audio_file_path : string) : M string :=
  data <- read_file audio_file_path ;;
  let audio_encoded := b64encode_str data in
  ret audio_encoded.
End TranscribeVoice.

(** ** app.py *)

(** Voice dictionary for voice selection. *)
Definition voice_dict : dict :=
  [("Adam", "alloy"); ("Onyx", "onyx"); ("Nova", "nova"); ("Ocean", "shimmer")].

(** The voice names that the [tts-1] speech endpoint accepts.  This list is
    the service's contract, not code of the repository; it is what "valid
    synthesis voice identifier" is measured against. *)
Definition tts_voices : list string :=
  ["alloy"; "echo"; "fable"; "onyx"; "nova"; "shimmer"].

Definition initialize_llm : ChatOpenAI := mkChatOpenAI "gpt-4o" 0.

Definition initialize_memory : ConversationSummaryBufferMemory :=
  let summarizer_llm := mkChatOpenAI "gpt-3.5-turbo" 0 in
  mkMemory "chat_history" true summarizer_llm "answer".

Definition get_system_prompts : SystemPrompt * SystemPrompt :=
  (ContextualizeQ, WitnessQA).

Definition create_prompts (contextualize_q_system_prompt qa_system_prompt
    : SystemPrompt) : ChatPromptTemplate * ChatPromptTemplate :=
  let contextualize_q_prompt :=
    [SystemPart contextualize_q_system_prompt;
     MessagesPlaceholder "chat_history"; HumanPart "{input}"] in
  let qa_prompt :=
    [SystemPart qa_system_prompt;
     MessagesPlaceholder "chat_history"; HumanPart "{input}"] in
  (contextualize_q_prompt, qa_prompt).

Definition initialize_question_answer_chain (llm : ChatOpenAI)
    (qa_prompt : ChatPromptTemplate) : DocumentChain :=
  mkDocumentChain llm qa_prompt.

(** What the user did on the page for one run of the script. *)
Record UIInput := mkUIInput {
  voice_pick : nat;                    (* 'Select Voice:' *)
  collection_pick : nat;               (* collection select box *)
  text_input : string;                 (* "Enter a new collection name" *)
  file_uploader : option (list byte);  (* "Choose a PDF file" *)
  submit_button : bool;                (* st.button('Submit') *)
  audio_recorder : option (list byte); (* the recorded question, if any *)
}.

Definition dquote : string := String "034"%char EmptyString.

(** The inline player that [run_chatbot] renders. *)
Definition audio_tag (audio_base64 : string) : string :=
  "<audio controls autoplay><source src=" +:+ dquote
  +:+ "data:audio/wav;base64," +:+ audio_base64 +:+ dquote
  +:+ " type=" +:+ dquote +:+ "audio/wav" +:+ dquote +:+ "></audio>".

Definition explanation_text : string :=
"
    #### This application contains two sample collections:
    
    1. **Sample1_Epstein-GhislaineMaxwell-Deposition**: This sample contains deposition of Ghislaine Maxwell related to the Epstein case.
    
    2. **Sample2_Jan6-AlanKlukowski-Deposition**: This sample contains deposition of Alan Klukowski related to January 6 Capitol events.
    
    ".

(** The options of the collection select box, from the directory listing. *)
Definition collection_list_of (files : list string) : list string :=
  let collection_list := List.filter (λ file, endswith file ".txt") files in
  collection_list ++ ["Create new collection"].

Section App.
Context (env : Env).

Definition initialize_BM25Retriever (ui : UIInput)
  : M (option (Retriever env)) :=
  let index_directory := "data/" in
  files <- os_listdir index_directory ;;
  let collection_list := collection_list_of files in
  collection_name_str <-
    selectbox "Select a collection or create a new one:" collection_list
              (collection_pick ui) ;;
  if decide (collection_name_str = Some "Create new collection") then
    log (EvTextInput "Enter a new collection name") ;;
    let new_collection_name := text_input ui in
    log (EvFileUploader "Choose a PDF file" "pdf") ;;
    let uploaded_file := file_uploader ui in
    log (EvButton "Submit") ;;
    if submit_button ui then
      match str_truthy new_collection_name, uploaded_file with
      | true, Some uploaded =>
          write_file (new_collection_name +:+ ".pdf") uploaded ;;
          returned <- create_new_collection_streamlit env
                        new_collection_name new_collection_name ;;
          unpacked <- lift (unpack2 returned) ;;
          let '(db, splits) := unpacked in
          retriever <- lift (from_documents env (OneDoc splits)) ;;
          ret (Some retriever)
      | _, _ => ret None
      end
    else ret None
  else
    retriever <- load_BM25Retriever env collection_name_str ;;
    ret (Some retriever).

Definition run_chatbot (llm : ChatOpenAI) (retriever : option (Retriever env))
    (contextualize_q_prompt : ChatPromptTemplate)
    (question_answer_chain : DocumentChain) (voice_key : option string)
    (ui : UIInput) : M unit :=
  match retriever with
  | None => ret tt
  | Some retriever =>
      let history_aware_retriever :=
        mkHistoryAware llm retriever contextualize_q_prompt in
      let rag_chain :=
        mkRetrievalChain history_aware_retriever question_answer_chain in
      let chat_history : list HistoryItem := [] in
      let audio_bytes := audio_recorder ui in
      log (EvRecorder audio_bytes) ;;
      match audio_bytes with
      | Some ((_ :: _) as audio_bytes) =>
          log (EvAudioWidget audio_bytes) ;;
          transcript <- record_and_transcribe env audio_bytes ;;
          let user_input := transcript in
          log (EvInvoke user_input chat_history) ;;
          response <- lift (rag_invoke env rag_chain user_input chat_history) ;;
          let chat_history :=
            chat_history ++ [HumanMessage user_input; PlainAnswer response] in
          voice <- lift (dict_get voice_dict voice_key) ;;
          create_output_speech env response voice ;;
          conversation_history <- session_get ;;
          conversation_history <-
            list_append conversation_history ("You", user_input) ;;
          conversation_history <-
            list_append conversation_history ("Bot", response) ;;
          session_set conversation_history ;;
          for_each conversation_history (λ '(role, text),
            log (EvMarkdown ("**" +:+ role +:+ "**: " +:+ text) false)) ;;
          audio_base64 <- convert_audio_to_base64 "speech.wav" ;;
          log (EvMarkdown (audio_tag audio_base64) true)
      | _ => ret tt
      end
  end.

Definition main (ui : UIInput) : M unit :=
  log (EvHeader "Cross Examination") ;;
  voice_key <- selectbox "Select Voice:" (dict_keys voice_dict)
                         (voice_pick ui) ;;
  log (EvMarkdown explanation_text false) ;;
  let llm := initialize_llm in
  let memory := initialize_memory in
  let '(contextualize_q_system_prompt, qa_system_prompt) :=
    get_system_prompts in
  let '(contextualize_q_prompt, qa_prompt) :=
    create_prompts contextualize_q_system_prompt qa_system_prompt in
  let question_answer_chain :=
    initialize_question_answer_chain llm qa_prompt in
  retriever <- initialize_BM25Retriever ui ;;
  run_chatbot llm retriever contextualize_q_prompt question_answer_chain
              voice_key ui.

(** A session: Streamlit runs the script again for every interaction;
    the files and the session state are what one run leaves to the next,
    and a run that raised does not end the session. *)
Fixpoint session (runs : list UIInput) (w : World) : World :=
  match runs with
  | [] => w
  | ui :: runs' => session runs' (main ui w).2
  end.
End App.

(** ** Vocabulary of the statements *)

(** The events of one complete turn of [run_chatbot], in order:
    [log_before] is the conversation log when the turn starts. *)
Definition render_turn (entry : string * string) : Event :=
  EvMarkdown ("**" +:+ entry.1 +:+ "**: " +:+ entry.2) false.

Definition turn_events (audio : list byte) (user_input response voice : string)
    (log_before : list (string * string)) (audio_base64 : string)
  : list Event :=
  [EvRecorder (Some audio); EvAudioWidget audio; EvTranscribe audio;
   EvInvoke user_input []; EvSpeech voice response;
   EvLogAppend "You" user_input; EvLogAppend "Bot" response]
  ++ (render_turn <$>
        log_before ++ [("You", user_input); ("Bot", response)])
  ++ [EvMarkdown (audio_tag audio_base64) true].

(** The chat histories that were handed to [rag_chain.invoke], in order. *)
Definition invoked_histories (tr : list Event) : list (list HistoryItem) :=
  omap (λ e, match e with
             | EvInvoke _ chat_history => Some chat_history
             | _ => None
             end) tr.

(** The same environment with another summarising model. *)
Definition with_summarizer (env : Env)
    (s : ChatOpenAI → list HistoryItem → string) : Env :=
  mkEnv (Retriever env) (transcriptions_create env) (speech_create env)
        (decode_text env) (split_documents env) (from_documents env)
        (retrieve env) (rag_invoke env) s (pdf_to_text env).

(** A name with no directory separator in it. *)
Fixpoint slash_free (s : string) : bool :=
  match s with
  | EmptyString => true
  | String c s' => negb (Ascii.eqb c "/") && slash_free s'
  end.

(** ** A test double for the environment

    Used to run the program on concrete inputs: the speech-to-text stub
    returns the recording's bytes as text, the chain echoes the question,
    the retriever keeps the documents it was built from. *)
Definition all_documents (arg : DocsArg) : list Document :=
  match arg with
  | DocList docs => docs
  | OneDoc doc => [doc]
  end.

Definition stub_env
    (whisper : FS → list byte → Result string * FS)
    (splitter : list Document → list Document) : Env :=
  mkEnv (list Document)
        whisper
        (λ _ _ input, Ok (String.list_byte_of_string input))
        (λ data, Ok (String.string_of_list_byte data))
        splitter
        (λ arg, Ok (all_documents arg))
        (λ docs _, docs)
        (λ _ input _, Ok ("Answer to: " +:+ input))
        (λ _ _, "")
        (λ pdf, Ok pdf).

(** A speech-to-text service that answers and leaves the files alone. *)
Definition whisper_ok (files : FS) (audio : list byte)
  : Result string * FS :=
  (Ok (String.string_of_list_byte audio), files).

(** One during whose call the recording disappears from the directory. *)
Definition whisper_file_gone (files : FS) (audio : list byte)
  : Result string * FS :=
  (Ok (String.string_of_list_byte audio), delete "Question.wav" files).

(** A splitter that cuts every document into two halves by length. *)
Definition split_in_two (docs : list Document) : list Document :=
  d ← docs;
  let n := String.length (page_content d) / 2 in
  [mkDocument (String.substring 0 n (page_content d)) (source d);
   mkDocument
     (String.substring n (String.length (page_content d) - n) (page_content d))
     (source d)].

Definition no_split (docs : list Document) : list Document := docs.

Definition demo_env : Env := stub_env whisper_ok no_split.

Definition sample_text : list byte :=
  String.list_byte_of_string "I was not present. I arrived at 9pm.".

Definition sample_world : World :=
  mkWorld {[ "data/Sample1.txt" := sample_text ]} None [].

Definition ask (question : string) : UIInput :=
  mkUIInput 0 0 "" None false (Some (String.list_byte_of_string question)).

Definition upload (name : string) (pdf : list byte) : UIInput :=
  mkUIInput 0 1 name (Some pdf) true None.

(** Every event that [m] adds to the trace satisfies [P]. *)
Definition emits_only {A} (P : Event → Prop) (m : M A) : Prop :=
  ∀ w, ∃ evs, trace (m w).2 = trace w ++ evs ∧ Forall P evs.

(** An event that is not a chain invocation, or one with an empty
    [chat_history]. *)
Definition history_is_empty (e : Event) : Prop :=
  match e with
  | EvInvoke _ chat_history => chat_history = []
  | _ => True
  end.

(** ** Vocabulary of the further properties *)


(** [m] leaves the stored conversation log as it was. *)
Definition keeps_session {A} (m : M A) : Prop :=
  ∀ w, session_state (m w).2 = session_state w.

(** A speech-to-text service that leaves the files alone. *)
Definition leaves_files (env : Env) : Prop :=
  ∀ files audio, (transcriptions_create env files audio).2 = files.

(** A conversation log made of exchanges: a user turn, then the bot's. *)
Fixpoint exchanges (entries : list (string * string)) : bool :=
  match entries with
  | [] => true
  | (asker, _) :: (answerer, _) :: rest =>
      bool_decide (asker = "You") && bool_decide (answerer = "Bot")
      && exchanges rest
  | [_] => false
  end.

(** The chain object that [run_chatbot] builds from its arguments. *)
Definition rag_chain_of {R} (llm : ChatOpenAI) (retriever : R)
    (contextualize_q_prompt : ChatPromptTemplate)
    (question_answer_chain : DocumentChain) : RetrievalChain R :=
  mkRetrievalChain (mkHistoryAware llm retriever contextualize_q_prompt)
                   question_answer_chain.

(** A call to the speech service with a voice of [voice_dict]. *)
Definition speaks_configured_voice (e : Event) : Prop :=
  match e with
  | EvSpeech voice _ => voice ∈ voice_dict.*2
  | _ => True
  end.

(** A call to the transcription service with a recording that is not
    empty. *)
Definition transcribes_recording (e : Event) : Prop :=
  match e with
  | EvTranscribe audio => audio ≠ []
  | _ => True
  end.

(** The events that every run of [main] starts with. *)
Definition page_head (files : FS) : list Event :=
  [EvHeader "Cross Examination";
   EvSelectbox "Select Voice:" (dict_keys voice_dict);
   EvMarkdown explanation_text false;
   EvSelectbox "Select a collection or create a new one:"
     (collection_list_of (listdir "data/" files))].

(** The upload form that the create option shows below the selector. *)
Definition upload_form : list Event :=
  [EvTextInput "Enter a new collection name";
   EvFileUploader "Choose a PDF file" "pdf";
   EvButton "Submit"].

(** A speech-to-text service that is down and leaves the files alone. *)
Definition whisper_down (files : FS) (audio : list byte)
  : Result string * FS :=
  (Raise (ServiceError "service unavailable"), files).

(** An environment whose PDF extractor fails on every file. *)
Definition unreadable_pdf_env : Env :=
  mkEnv (list Document) whisper_ok
        (λ _ _ input, Ok (String.list_byte_of_string input))
        (λ data, Ok (String.string_of_list_byte data))
        no_split
        (λ arg, Ok (all_documents arg))
        (λ docs _, docs)
        (λ _ input _, Ok ("Answer to: " +:+ input))
        (λ _ _, "")
        (λ _, Raise (ServiceError "not a PDF")).

(** * Properties *)

(** ** Base64 round trip *)

Section Base64.
Local Ltac by_cases_below_64 n :=
  let k := fresh "k" in
  let Hk := fresh "Hk" in
  rewrite <- (N2Nat.id n) in *;
  assert (Hk : N.to_nat n < 64) by lia;
  revert Hk; generalize (N.to_nat n) as k; intros k Hk;
  do 64 (destruct k as [|k]; [reflexivity|]); lia.

Lemma b64_index_char n : (n < 64)%N → b64_index (b64_char n) = Some n.
Proof. intros Hn. by_cases_below_64 n. Qed.

Lemma b64_char_not_pad n :
  (n < 64)%N → Ascii.eqb (b64_char n) b64_pad = false.
Proof. intros Hn. by_cases_below_64 n. Qed.

Lemma sextet_lt g i : (sextet g i < 64)%N.
Proof. unfold sextet. apply N.mod_lt. lia. Qed.

Local Ltac euclid :=
  unfold group24, sextet, unsextets;
  change (64 ^ (3 - 0))%N with 262144%N;
  change (64 ^ (3 - 1))%N with 4096%N;
  change (64 ^ (3 - 2))%N with 64%N;
  change (64 ^ (3 - 3))%N with 1%N;
  zify; Z.to_euclidean_division_equations; lia.

Lemma unsextets_group24 a b c :
  (a ≤ 255)%N → (b ≤ 255)%N → (c ≤ 255)%N →
  let g := group24 a b c in
  unsextets (sextet g 0) (sextet g 1) (sextet g 2) (sextet g 3) = g.
Proof. intros Ha Hb Hc g. subst g. euclid. Qed.

Lemma unsextets_group24_two a b :
  (a ≤ 255)%N → (b ≤ 255)%N →
  let g := group24 a b 0 in
  unsextets (sextet g 0) (sextet g 1) (sextet g 2) 0 = g.
Proof. intros Ha Hb g. subst g. euclid. Qed.

Lemma unsextets_group24_one a :
  (a ≤ 255)%N →
  let g := group24 a 0 0 in
  unsextets (sextet g 0) (sextet g 1) 0 0 = g.
Proof. intros Ha g. subst g. euclid. Qed.

Lemma octet_group24 a b c :
  (a ≤ 255)%N → (b ≤ 255)%N → (c ≤ 255)%N →
  let g := group24 a b c in
  octet g 0 = Byte.of_N a ∧ octet g 1 = Byte.of_N b
  ∧ octet g 2 = Byte.of_N c.
Proof.
  intros Ha Hb Hc g. subst g. unfold octet, group24.
  change (256 ^ (2 - 0))%N with 65536%N.
  change (256 ^ (2 - 1))%N with 256%N.
  change (256 ^ (2 - 2))%N with 1%N.
  repeat split; f_equal; zify; Z.to_euclidean_division_equations; lia.
Qed.

Lemma decode_quad_full (x y z : byte) :
  let g := group24 (Byte.to_N x) (Byte.to_N y) (Byte.to_N z) in
  decode_quad (b64_char (sextet g 0)) (b64_char (sextet g 1))
              (b64_char (sextet g 2)) (b64_char (sextet g 3))
  = Some [x; y; z].
Proof.
  intros g. unfold decode_quad.
  rewrite !b64_index_char, !b64_char_not_pad by apply sextet_lt.
  cbn [mbind option_bind].
  subst g. rewrite unsextets_group24 by apply Byte.to_N_bounded.
  destruct (octet_group24 (Byte.to_N x) (Byte.to_N y) (Byte.to_N z))
    as (-> & -> & ->); try apply Byte.to_N_bounded.
  by rewrite !Byte.of_to_N.
Qed.

Lemma decode_quad_two (x y : byte) :
  let g := group24 (Byte.to_N x) (Byte.to_N y) 0 in
  decode_quad (b64_char (sextet g 0)) (b64_char (sextet g 1))
              (b64_char (sextet g 2)) b64_pad = Some [x; y].
Proof.
  intros g. unfold decode_quad.
  rewrite !b64_index_char, !b64_char_not_pad by apply sextet_lt.
  rewrite Ascii.eqb_refl. cbn [mbind option_bind].
  subst g. rewrite unsextets_group24_two by apply Byte.to_N_bounded.
  destruct (octet_group24 (Byte.to_N x) (Byte.to_N y) 0)
    as (-> & -> & _); try apply Byte.to_N_bounded; [lia|].
  by rewrite !Byte.of_to_N.
Qed.

Lemma decode_quad_one (x : byte) :
  let g := group24 (Byte.to_N x) 0 0 in
  decode_quad (b64_char (sextet g 0)) (b64_char (sextet g 1))
              b64_pad b64_pad = Some [x].
Proof.
  intros g. unfold decode_quad.
  rewrite !b64_index_char by apply sextet_lt.
  rewrite !Ascii.eqb_refl. cbn [mbind option_bind].
  subst g. rewrite unsextets_group24_one by apply Byte.to_N_bounded.
  destruct (octet_group24 (Byte.to_N x) 0 0)
    as (-> & _ & _); try apply Byte.to_N_bounded; try lia.
  by rewrite !Byte.of_to_N.
Qed.

(** Induction three octets at a time, through a bound on the length. *)
Lemma b64decode_chars_encode_bounded n bs :
  length bs ≤ n → b64decode_chars (b64encode bs) = Some bs.
Proof.
  revert bs. induction n as [|n IH]; intros bs Hlen.
  { destruct bs; [done | simpl in Hlen; lia]. }
  destruct bs as [|x [|y [|z rest]]]; [done | | |].
  - cbn [b64encode b64decode_chars]. rewrite Ascii.eqb_refl.
    apply decode_quad_one.
  - cbn [b64encode b64decode_chars]. rewrite Ascii.eqb_refl.
    apply decode_quad_two.
  - cbn [b64encode b64decode_chars].
    rewrite b64_char_not_pad by apply sextet_lt.
    rewrite decode_quad_full. simpl in Hlen.
    rewrite IH by lia. done.
Qed.

Lemma b64decode_b64encode_str bs : b64decode (b64encode_str bs) = Some bs.
Proof.
  unfold b64decode, b64encode_str.
  rewrite String.list_ascii_of_string_of_list_ascii.
  by apply (b64decode_chars_encode_bounded (length bs)).
Qed.
End Base64.

(** C8. Whatever bytes the audio file holds, [convert_audio_to_base64]
    returns a string whose base64 decoding is exactly those bytes:
    decode(base64(audio_bytes)) == audio_bytes.  The call leaves the world
    as it was. *)
Theorem convert_audio_to_base64_roundtrip
    (audio_file_path : string) (audio_bytes : list byte) (w : World) :
  fs w !! audio_file_path = Some audio_bytes →
  ∃ audio_encoded,
    convert_audio_to_base64 audio_file_path w = (Ok audio_encoded, w)
    ∧ b64decode audio_encoded = Some audio_bytes.
Proof.
  intros Hfile. exists (b64encode_str audio_bytes). split.
  - unfold convert_audio_to_base64, bind, read_file, ret. by rewrite Hfile.
  - apply b64decode_b64encode_str.
Qed.

Lemma convert_audio_to_base64_roundtrip_witness :
  let w := session demo_env [ask "Where were you?"] sample_world in
  ∃ audio_encoded,
    convert_audio_to_base64 "speech.wav" w = (Ok audio_encoded, w)
    ∧ b64decode audio_encoded
      = Some (String.list_byte_of_string "Answer to: Where were you?").
Proof.
  apply (convert_audio_to_base64_roundtrip "speech.wav"
           (String.list_byte_of_string "Answer to: Where were you?")
           (session demo_env [ask "Where were you?"] sample_world)).
  vm_compute. reflexivity.
Defined.

(** ** Running the statements *)

Lemma bind_ok {A B} (m : M A) (k : A → M B) w a w' :
  m w = (Ok a, w') → bind m k w = k a w'.
Proof. unfold bind. by intros ->. Qed.

Lemma bind_raise {A B} (m : M A) (k : A → M B) w e w' :
  m w = (Raise e, w') → bind m k w = (Raise e, w').
Proof. unfold bind. by intros ->. Qed.

Lemma world_eta w : mkWorld (fs w) (session_state w) (trace w) = w.
Proof. by destruct w. Qed.

(** ** Voice transcription: the temporary file *)

(** What [record_and_transcribe] amounts to: the recording is written, the
    service is called on it, and on success the file is gone whether or
    not it was still there. *)
Lemma record_and_transcribe_run (env : Env) (audio_bytes : list byte) w :
  record_and_transcribe env audio_bytes w =
  let w1 := emit (EvTranscribe audio_bytes)
              (with_fs (<["Question.wav" := audio_bytes]> (fs w)) w) in
  match transcriptions_create env (fs w1) audio_bytes with
  | (Ok transcript, files) =>
      (Ok transcript, with_fs (delete "Question.wav" files) w1)
  | (Raise e, files) => (Raise e, with_fs files w1)
  end.
Proof.
  unfold record_and_transcribe, bind, write_file, read_file,
    call_transcriptions_create, os_path_exists, os_remove, ret.
  cbn [fs with_fs emit]. rewrite lookup_insert_eq.
  destruct (transcriptions_create env _ audio_bytes) as [[transcript|e] files];
    [|done].
  cbn [fs with_fs emit].
  destruct (files !! "Question.wav") as [data|] eqn:Hfile.
  - rewrite bool_decide_eq_true_2 by eauto. cbn [fs with_fs]. by rewrite Hfile.
  - rewrite bool_decide_eq_false_2 by (intros [? ?]; congruence).
    unfold with_fs. cbn [fs session_state trace].
    by rewrite (delete_id files "Question.wav").
Qed.

(** C6. After every successful call to [record_and_transcribe] the file
    [Question.wav] does not exist; and the call succeeds whenever the
    service answers, also when the file is already missing at the time of
    the deletion (the existence check makes the deletion a no-op then, not
    an error). *)
Theorem record_and_transcribe_cleanup
    (env : Env) (audio_bytes : list byte) (w : World) :
  (∀ transcript w',
     record_and_transcribe env audio_bytes w = (Ok transcript, w') →
     fs w' !! "Question.wav" = None)
  ∧ (∀ transcript files,
       transcriptions_create env
         (<["Question.wav" := audio_bytes]> (fs w)) audio_bytes
         = (Ok transcript, files) →
       ∃ w', record_and_transcribe env audio_bytes w = (Ok transcript, w')
             ∧ fs w' = delete "Question.wav" files
             ∧ fs w' !! "Question.wav" = None).
Proof.
  split.
  - intros transcript w'. rewrite record_and_transcribe_run. cbn zeta.
    destruct (transcriptions_create env _ audio_bytes)
      as [[transcript'|e] files]; [|done].
    intros [= _ <-]. cbn [fs with_fs]. apply lookup_delete_eq.
  - intros transcript files Hcall. eexists. split; [|split].
    + rewrite record_and_transcribe_run. cbn zeta. cbn [fs with_fs emit].
      rewrite Hcall. reflexivity.
    + reflexivity.
    + cbn [fs with_fs]. apply lookup_delete_eq.
Qed.

Lemma record_and_transcribe_cleanup_witness :
  let env := stub_env whisper_file_gone no_split in
  let audio := [x52; x49; x46; x46] in
  ∃ w', record_and_transcribe env audio sample_world = (Ok "RIFF", w')
        ∧ fs w' = delete "Question.wav"
                    (delete "Question.wav"
                       (<["Question.wav" := audio]> (fs sample_world)))
        ∧ fs w' !! "Question.wav" = None.
Proof.
  apply (proj2 (record_and_transcribe_cleanup
                  (stub_env whisper_file_gone no_split)
                  [x52; x49; x46; x46] sample_world)).
  reflexivity.
Defined.

(** ** One turn of the conversation *)

Local Open Scope prog_scope.

Ltac simpl_world :=
  cbn [fs session_state trace emit with_fs with_session fst snd].

Lemma bind_ret {A B} (a : A) (k : A → M B) w : bind (ret a) k w = k a w.
Proof. reflexivity. Qed.

Lemma bind_log {B} e (k : unit → M B) w : bind (log e) k w = k tt (emit e w).
Proof. reflexivity. Qed.

Lemma bind_lift {A B} (r : Result A) (k : A → M B) w :
  bind (lift r) k w =
  match r with Ok a => k a w | Raise e => (Raise e, w) end.
Proof. unfold bind, lift. by destruct r. Qed.

Lemma bind_write_file {B} path data (k : unit → M B) w :
  bind (write_file path data) k w
  = k tt (with_fs (<[path := data]> (fs w)) w).
Proof. reflexivity. Qed.

Lemma bind_read_file {B} path data (k : list byte → M B) w :
  fs w !! path = Some data → bind (read_file path) k w = k data w.
Proof. intros Hfile. unfold bind, read_file. by rewrite Hfile. Qed.

Lemma bind_session_get {B} (k : list (string * string) → M B) w :
  bind session_get k w = k (default [] (session_state w)) w.
Proof. reflexivity. Qed.

Lemma bind_session_set {B} value (k : unit → M B) w :
  bind (session_set value) k w = k tt (with_session (Some value) w).
Proof. reflexivity. Qed.

Lemma bind_list_append {B} lst item (k : list (string * string) → M B) w :
  bind (list_append lst item) k w =
  k (lst ++ [item])
    (mkWorld (fs w)
       (match session_state w with
        | Some _ => Some (lst ++ [item])
        | None => None
        end)
       (trace w ++ [EvLogAppend item.1 item.2])).
Proof. by destruct w as [files [stored|] tr]. Qed.

Ltac run_step :=
  first [ rewrite bind_ret | rewrite bind_log | rewrite bind_lift
        | rewrite bind_write_file | rewrite bind_session_get
        | rewrite bind_session_set | rewrite bind_list_append ];
  cbv beta.

Lemma for_each_render (entries : list (string * string)) w :
  for_each entries (λ '(role, text),
     log (EvMarkdown ("**" +:+ role +:+ "**: " +:+ text) false)) w
  = (Ok tt, mkWorld (fs w) (session_state w)
              (trace w ++ (render_turn <$> entries))).
Proof.
  revert w. induction entries as [|[role text] entries IH]; intros w.
  - cbn. by rewrite app_nil_r, world_eta.
  - cbn [for_each]. rewrite bind_log, IH. simpl_world.
    cbn [fmap list_fmap]. by rewrite <- app_assoc.
Qed.

Lemma create_output_speech_run env response voice w :
  create_output_speech env response voice w =
  let w1 := emit (EvSpeech voice response) w in
  match speech_create env "tts-1" voice response with
  | Ok audio => (Ok tt, with_fs (<["speech.wav" := audio]> (fs w1)) w1)
  | Raise e => (Raise e, w1)
  end.
Proof.
  unfold create_output_speech, bind, log, lift, write_file.
  by destruct (speech_create env _ voice response).
Qed.



(** ** The chat history across the turns of a session *)

Section Emits.
Context (P : Event → Prop).

Lemma emits_ret {A} (a : A) : emits_only P (ret a).
Proof. intros w. exists []. by rewrite app_nil_r. Qed.

Lemma emits_lift {A} (r : Result A) : emits_only P (lift r).
Proof. intros w. exists []. by rewrite app_nil_r. Qed.

Lemma emits_log e : P e → emits_only P (log e).
Proof. intros He w. exists [e]. split; [done|]. by constructor. Qed.

Lemma emits_bind {A B} (m : M A) (k : A → M B) :
  emits_only P m → (∀ a, emits_only P (k a)) → emits_only P (bind m k).
Proof.
  intros Hm Hk w. destruct (Hm w) as (evs & Htr & Hevs). unfold bind.
  destruct (m w) as [[a|e] w1]; simpl in Htr.
  - destruct (Hk a w1) as (evs' & Htr' & Hevs').
    exists (evs ++ evs'). split.
    + by rewrite Htr', Htr, app_assoc.
    + by apply Forall_app.
  - by exists evs.
Qed.

Lemma emits_silent {A} (m : M A) :
  (∀ w, trace (m w).2 = trace w) → emits_only P m.
Proof. intros Hm w. exists []. by rewrite app_nil_r. Qed.

Lemma emits_write_file path data : emits_only P (write_file path data).
Proof. by apply emits_silent. Qed.

Lemma emits_read_file path : emits_only P (read_file path).
Proof.
  apply emits_silent. intros w. unfold read_file.
  by destruct (fs w !! path).
Qed.

Lemma emits_os_path_exists path : emits_only P (os_path_exists path).
Proof. by apply emits_silent. Qed.

Lemma emits_os_remove path : emits_only P (os_remove path).
Proof.
  apply emits_silent. intros w. unfold os_remove.
  by destruct (fs w !! path).
Qed.

Lemma emits_os_listdir dir : emits_only P (os_listdir dir).
Proof. by apply emits_silent. Qed.

Lemma emits_session_get : emits_only P session_get.
Proof. by apply emits_silent. Qed.

Lemma emits_session_set value : emits_only P (session_set value).
Proof. by apply emits_silent. Qed.

Lemma emits_list_append lst item :
  P (EvLogAppend item.1 item.2) → emits_only P (list_append lst item).
Proof.
  intros He w. exists [EvLogAppend item.1 item.2]. split.
  - unfold list_append. by destruct (session_state w).
  - by constructor.
Qed.

Lemma emits_call_transcriptions_create env audio :
  P (EvTranscribe audio) →
  emits_only P (call_transcriptions_create env audio).
Proof.
  intros He w. exists [EvTranscribe audio]. split; [|by constructor].
  unfold call_transcriptions_create. cbn zeta.
  by destruct (transcriptions_create env _ audio).
Qed.

Lemma emits_for_each {A} (xs : list A) (body : A → M unit) :
  (∀ x, emits_only P (body x)) → emits_only P (for_each xs body).
Proof.
  intros Hbody. induction xs as [|x xs IH]; cbn [for_each].
  - apply emits_ret.
  - apply emits_bind; [apply Hbody | intros _; apply IH].
Qed.
End Emits.

Ltac emits :=
  repeat first
    [ apply emits_bind; [|intros ?]
    | apply emits_ret | apply emits_lift | apply emits_write_file
    | apply emits_read_file | apply emits_os_path_exists
    | apply emits_os_remove | apply emits_os_listdir
    | apply emits_session_get | apply emits_session_set
    | apply emits_list_append; exact I
    | apply emits_call_transcriptions_create; exact I
    | apply emits_log; first [exact I | reflexivity]
    | apply emits_for_each; intros ?
    | match goal with
      | |- emits_only _ (match ?x with _ => _ end) => destruct x
      end ].

Lemma run_chatbot_history_is_empty env llm retriever cq qa voice_key ui :
  emits_only history_is_empty
    (run_chatbot env llm retriever cq qa voice_key ui).
Proof.
  unfold run_chatbot, record_and_transcribe, create_output_speech,
    convert_audio_to_base64.
  emits.
Qed.

Lemma main_history_is_empty env ui : emits_only history_is_empty (main env ui).
Proof.
  unfold main, selectbox, initialize_BM25Retriever, selectbox,
    create_new_collection_streamlit, load_BM25Retriever, read,
    text_loader_load.
  cbn [get_system_prompts create_prompts].
  emits; apply run_chatbot_history_is_empty.
Qed.

Lemma invoked_histories_empty evs :
  Forall history_is_empty evs → Forall (λ h, h = []) (invoked_histories evs).
Proof.
  unfold invoked_histories. induction 1 as [|e evs He _ IH]; [constructor|].
  destruct e; cbn [omap list_omap]; try exact IH.
  constructor; [exact He | exact IH].
Qed.

(** In every session, whatever the user does and whatever the services
    answer, each call of [rag_chain.invoke] is given an empty
    [chat_history]. *)
Lemma session_histories_empty env runs w :
  ∃ evs, trace (session env runs w) = trace w ++ evs
         ∧ Forall (λ h, h = []) (invoked_histories evs).
Proof.
  revert w. induction runs as [|ui runs IH]; intros w; cbn [session].
  - exists []. by rewrite app_nil_r.
  - destruct (main_history_is_empty env ui w) as (evs & Htr & Hevs).
    destruct (IH (main env ui w).2) as (evs' & Htr' & Hevs').
    exists (evs ++ evs'). split.
    + by rewrite Htr', Htr, app_assoc.
    + unfold invoked_histories in *. rewrite omap_app. apply Forall_app.
      split; [by apply invoked_histories_empty | done].
Qed.

(** C2 (the code falls short of it).  A session of two turns over the
    sample collection: when the second question is asked, the first
    exchange is in the conversation log, yet the chain is invoked with an
    empty [chat_history] both times, so the query-rewriting step never
    sees the prior exchange. *)
Theorem second_turn_history_is_empty :
  let w := session demo_env
             [ask "Where were you?"; ask "When did you arrive?"]
             sample_world in
  invoked_histories (trace w) = [[]; []]
  ∧ session_state w
    = Some [("You", "Where were you?");
            ("Bot", "Answer to: Where were you?");
            ("You", "When did you arrive?");
            ("Bot", "Answer to: When did you arrive?")]
  ∧ invoked_histories (trace w)
    ≠ [[]; [HumanMessage "Where were you?";
            PlainAnswer "Answer to: Where were you?"]].
Proof. vm_compute. by repeat split. Qed.

(** C3 (the code falls short of it).  The history handed to the answer
    pipeline never grows: in every session each invocation gets a history
    of length 0.  And the memory object built by [initialize_memory] is
    never consulted: replacing its summarising model changes nothing in
    what a session does. *)
Theorem history_never_grows_nor_summarized
    (env : Env) (summarizer : ChatOpenAI → list HistoryItem → string)
    (runs : list UIInput) (w : World) :
  session (with_summarizer env summarizer) runs w = session env runs w
  ∧ ∃ evs, trace (session env runs w) = trace w ++ evs
           ∧ Forall (λ h, length h = 0) (invoked_histories evs).
Proof.
  split.
  - revert w. induction runs as [|ui runs IH]; intros w; [done|].
    cbn [session]. by rewrite IH.
  - destruct (session_histories_empty env runs w) as (evs & Htr & Hevs).
    exists evs. split; [done|].
    eapply Forall_impl; [exact Hevs|]. by intros h ->.
Qed.

(** ** Paths and the directory listing *)

Lemma app_empty_l (s : string) : "" +:+ s = s.
Proof. reflexivity. Qed.

Lemma app_String c (s t : string) : String c s +:+ t = String c (s +:+ t).
Proof. reflexivity. Qed.

Lemma length_app (s t : string) :
  String.length (s +:+ t) = String.length s + String.length t.
Proof.
  induction s as [|c s IH]; [done|].
  rewrite app_String. cbn [String.length]. by rewrite IH.
Qed.

Lemma remove_suffix_refl s : remove_suffix s s = Some "".
Proof. destruct s; cbn [remove_suffix]; by rewrite String.eqb_refl. Qed.

Lemma remove_suffix_app s suffix : remove_suffix (s +:+ suffix) suffix = Some s.
Proof.
  induction s as [|c s IH].
  - rewrite app_empty_l. apply remove_suffix_refl.
  - rewrite app_String. cbn [remove_suffix].
    assert (String.eqb (String c (s +:+ suffix)) suffix = false) as ->.
    { apply String.eqb_neq. intros Heq.
      apply (f_equal String.length) in Heq. cbn [String.length] in Heq.
      rewrite length_app in Heq. lia. }
    by rewrite IH.
Qed.

Lemma txt_path_of_pdf name : txt_path_of (name +:+ ".pdf") = name +:+ ".txt".
Proof. unfold txt_path_of. by rewrite remove_suffix_app. Qed.

Lemma slash_free_app s t : slash_free (s +:+ t) = slash_free s && slash_free t.
Proof.
  induction s as [|c s IH]; [done|].
  rewrite app_String. cbn [slash_free]. by rewrite IH, andb_assoc.
Qed.

Lemma strip_prefix_data_slash key rest :
  strip_prefix "data/" key = Some rest → slash_free key = false.
Proof.
  destruct key as [|c1 [|c2 [|c3 [|c4 [|c5 key]]]]]; cbn [strip_prefix];
    repeat case_match; try done.
  intros _. cbn [slash_free].
  match goal with H : Ascii.eqb "/" c5 = true |- _ =>
    apply Ascii.eqb_eq in H; subst c5 end.
  cbn. by rewrite !andb_false_r.
Qed.

Lemma entry_of_data_slash_free key :
  slash_free key = true → entry_of "data/" key = None.
Proof.
  intros Hfree. unfold entry_of.
  destruct (strip_prefix "data/" key) as [rest|] eqn:Hrest; [|done].
  apply strip_prefix_data_slash in Hrest. congruence.
Qed.

Lemma elem_of_listdir dir files name :
  name ∈ listdir dir files
  ↔ ∃ key, is_Some (files !! key) ∧ entry_of dir key = Some name.
Proof.
  unfold listdir. rewrite elem_of_remove_dups, list_elem_of_omap.
  split.
  - intros (key & Hkey & Hentry). exists key. split; [|done].
    apply list_elem_of_fmap in Hkey as ([key' data] & -> & Hin).
    apply elem_of_map_to_list in Hin. eauto.
  - intros (key & [data Hdata] & Hentry). exists key. split; [|done].
    apply list_elem_of_fmap. exists (key, data). split; [done|].
    by apply elem_of_map_to_list.
Qed.

(** ** Creating a collection from an upload *)

Lemma bind_os_listdir {B} dir (k : list string → M B) w :
  bind (os_listdir dir) k w = k (listdir dir (fs w)) w.
Proof. reflexivity. Qed.

Lemma bind_assoc {A B C} (m : M A) (k : A → M B) (k' : B → M C) w :
  bind (bind m k) k' w = bind m (λ a, bind (k a) k') w.
Proof. unfold bind. by destruct (m w) as [[a|e] w']. Qed.

Lemma bind_upload_form {B} (k : M B) w :
  bind (log (EvTextInput "Enter a new collection name"))
    (λ _, bind (log (EvFileUploader "Choose a PDF file" "pdf"))
            (λ _, bind (log (EvButton "Submit")) (λ _, k))) w
  = k (mkWorld (fs w) (session_state w) (trace w ++ upload_form)).
Proof.
  rewrite !bind_log. unfold emit, upload_form. simpl_world.
  by rewrite <- !app_assoc.
Qed.

(** The submit path of [initialize_BM25Retriever], run: the upload and the
    extracted text are written next to each other, then the returned chunk
    list is unpacked into two names. *)
Lemma initialize_create_run env ui w pdf text :
  picked (collection_list_of (listdir "data/" (fs w))) (collection_pick ui)
    = Some "Create new collection" →
  submit_button ui = true →
  str_truthy (text_input ui) = true →
  file_uploader ui = Some pdf →
  pdf_to_text env pdf = Ok text →
  let name := text_input ui in
  let w1 :=
    mkWorld (<[name +:+ ".txt" := text]> (<[name +:+ ".pdf" := pdf]> (fs w)))
      (session_state w)
      ((trace w ++ [EvSelectbox "Select a collection or create a new one:"
                      (collection_list_of (listdir "data/" (fs w)))])
       ++ upload_form) in
  initialize_BM25Retriever env ui w =
  match decode_text env text with
  | Raise e => (Raise e, w1)
  | Ok content =>
      match unpack2 (split_documents env
                       [mkDocument content (name +:+ ".txt")]) with
      | Raise e => (Raise e, w1)
      | Ok (db, splits) =>
          match from_documents env (OneDoc splits) with
          | Ok retriever => (Ok (Some retriever), w1)
          | Raise e => (Raise e, w1)
          end
      end
  end.
Proof.
  intros Hpick Hsubmit Hname Hfile Hpdf name w1.
  unfold initialize_BM25Retriever, selectbox.
  rewrite bind_os_listdir. cbv beta zeta.
  rewrite bind_assoc, bind_log, bind_ret. cbv beta. rewrite Hpick.
  rewrite decide_True by done. rewrite bind_upload_form.
  rewrite Hsubmit, Hname, Hfile.
  rewrite bind_write_file. simpl_world.
  unfold create_new_collection_streamlit, read. cbn [for_each].
  rewrite !bind_assoc.
  rewrite (bind_read_file _ pdf) by (simpl_world; apply lookup_insert_eq).
  cbv beta. rewrite !bind_assoc, bind_lift, Hpdf, bind_write_file, bind_ret.
  cbv beta. rewrite txt_path_of_pdf. unfold text_loader_load.
  rewrite !bind_assoc.
  rewrite (bind_read_file _ text) by (simpl_world; apply lookup_insert_eq).
  cbv beta. rewrite !bind_assoc, bind_lift. fold name. simpl_world.
  destruct (decode_text env text) as [content|e]; [|done].
  rewrite !bind_ret. cbv beta. rewrite bind_lift.
  destruct (unpack2 _) as [[db splits]|e]; [|done].
  rewrite bind_lift.
  by destruct (from_documents env (OneDoc splits)).
Qed.

Lemma initialize_create_world env ui w pdf text :
  picked (collection_list_of (listdir "data/" (fs w))) (collection_pick ui)
    = Some "Create new collection" →
  submit_button ui = true →
  str_truthy (text_input ui) = true →
  file_uploader ui = Some pdf →
  pdf_to_text env pdf = Ok text →
  fs (initialize_BM25Retriever env ui w).2
  = <[text_input ui +:+ ".txt" := text]>
      (<[text_input ui +:+ ".pdf" := pdf]> (fs w)).
Proof.
  intros Hpick Hsubmit Hname Hfile Hpdf.
  rewrite (initialize_create_run env ui w pdf text) by done. cbv zeta.
  destruct (decode_text env text) as [content|e]; [|done].
  destruct (unpack2 _) as [[db splits]|e]; [|done].
  by destruct (from_documents env (OneDoc splits)).
Qed.

(** C5. On the create-new-collection submit path the list returned by
    [create_new_collection_streamlit] is unpacked into [db, splits]: the
    call raises the unpacking error (ValueError) whenever the chunk list
    does not have exactly two elements, and when it has two, the retriever
    is built by [from_documents] from the second chunk alone. *)
Theorem create_path_unpacking
    (env : Env) (ui : UIInput) (w : World) (pdf text : list byte)
    (content : string) :
  picked (collection_list_of (listdir "data/" (fs w))) (collection_pick ui)
    = Some "Create new collection" →
  submit_button ui = true →
  str_truthy (text_input ui) = true →
  file_uploader ui = Some pdf →
  pdf_to_text env pdf = Ok text →
  decode_text env text = Ok content →
  let returned :=
    split_documents env [mkDocument content (text_input ui +:+ ".txt")] in
  (length returned ≠ 2 →
   (initialize_BM25Retriever env ui w).1 = Raise ValueError)
  ∧ (∀ first second, returned = [first; second] →
       (initialize_BM25Retriever env ui w).1
       = match from_documents env (OneDoc second) with
         | Ok retriever => Ok (Some retriever)
         | Raise e => Raise e
         end).
Proof.
  intros Hpick Hsubmit Hname Hfile Hpdf Htext returned.
  rewrite (initialize_create_run env ui w pdf text) by done. cbv zeta.
  rewrite Htext. fold returned. split.
  - intros Hlen. by destruct returned as [|d1 [|d2 [|d3 rest]]].
  - intros d1 d2 ->. cbn [unpack2].
    by destruct (from_documents env (OneDoc d2)).
Qed.

Lemma create_path_unpacking_witness :
  (initialize_BM25Retriever (stub_env whisper_ok no_split)
     (upload "depo" sample_text) sample_world).1 = Raise ValueError
  ∧ (initialize_BM25Retriever (stub_env whisper_ok split_in_two)
       (upload "depo" sample_text) sample_world).1
    = Ok (Some [mkDocument " I arrived at 9pm." "depo.txt"]).
Proof.
  split.
  - apply (create_path_unpacking (stub_env whisper_ok no_split)
             (upload "depo" sample_text) sample_world sample_text sample_text
             (String.string_of_list_byte sample_text));
      [vm_compute; reflexivity | reflexivity .. | ].
    vm_compute. lia.
  - apply (proj2 (create_path_unpacking (stub_env whisper_ok split_in_two)
             (upload "depo" sample_text) sample_world sample_text sample_text
             (String.string_of_list_byte sample_text)
             ltac:(vm_compute; reflexivity) eq_refl eq_refl eq_refl eq_refl
             eq_refl)
             (mkDocument "I was not present." "depo.txt")
             (mkDocument " I arrived at 9pm." "depo.txt")).
    vm_compute. reflexivity.
Defined.

Lemma elem_of_collection_list_of files name :
  name ∈ collection_list_of files
  ↔ (name ∈ files ∧ endswith name ".txt" = true)
    ∨ name = "Create new collection".
Proof.
  unfold collection_list_of. rewrite elem_of_app, list_elem_of_singleton.
  by rewrite list_elem_of_In, filter_In, <- list_elem_of_In.
Qed.

(** C4 (the code falls short of it).  For a new collection created from
    a PDF upload under a plain name (no directory separator), the upload
    is written as [<name>.pdf] and the collection text as [<name>.txt] in
    the working directory; no file under [data/] is created or changed,
    and the collections listed for selection are the same as before.  So
    the collection is not materialized under [data/], where the listing
    and the loader look, and it cannot be selected afterwards. *)
Theorem new_collection_in_working_directory
    (env : Env) (ui : UIInput) (w : World) (pdf text : list byte) :
  picked (collection_list_of (listdir "data/" (fs w))) (collection_pick ui)
    = Some "Create new collection" →
  submit_button ui = true →
  str_truthy (text_input ui) = true →
  file_uploader ui = Some pdf →
  pdf_to_text env pdf = Ok text →
  slash_free (text_input ui) = true →
  let new_collection_name := text_input ui in
  let w' := (initialize_BM25Retriever env ui w).2 in
  fs w' !! (new_collection_name +:+ ".pdf") = Some pdf
  ∧ fs w' !! (new_collection_name +:+ ".txt") = Some text
  ∧ (∀ key, is_Some (entry_of "data/" key) → fs w' !! key = fs w !! key)
  ∧ (∀ collection,
       collection ∈ collection_list_of (listdir "data/" (fs w'))
       ↔ collection ∈ collection_list_of (listdir "data/" (fs w))).
Proof.
  intros Hpick Hsubmit Hname Hfile Hpdf Hfree name w'. subst w'.
  rewrite (initialize_create_world env ui w pdf text) by done.
  fold name in Hfree |- *.
  assert (Hout : ∀ ext key, slash_free ext = true →
            is_Some (entry_of "data/" key) → name +:+ ext ≠ key).
  { intros ext key Hext [entry Hentry] <-.
    rewrite entry_of_data_slash_free in Hentry; [done|].
    by rewrite slash_free_app, Hfree, Hext. }
  assert (Hkeep : ∀ key, is_Some (entry_of "data/" key) →
            <[name +:+ ".txt" := text]> (<[name +:+ ".pdf" := pdf]> (fs w))
              !! key = fs w !! key).
  { intros key Hkey. rewrite !lookup_insert_ne; [done | |]; by apply Hout. }
  split; [|split; [|split]].
  - rewrite lookup_insert_ne; [apply lookup_insert_eq|].
    intros Heq%(inj (String.append name)). discriminate.
  - apply lookup_insert_eq.
  - exact Hkeep.
  - intros collection. rewrite !elem_of_collection_list_of.
    rewrite !elem_of_listdir.
    split; (intros [[(key & Hkey & Hentry) Htxt]|Hcreate]; [left|by right]).
    + split; [|done]. exists key. split; [|done].
      rewrite <- Hkeep; [done | by rewrite Hentry].
    + split; [|done]. exists key. split; [|done].
      rewrite Hkeep; [done | by rewrite Hentry].
Qed.

Lemma new_collection_in_working_directory_witness :
  let w' := (initialize_BM25Retriever demo_env (upload "depo" sample_text)
               sample_world).2 in
  fs w' !! ("depo" +:+ ".pdf") = Some sample_text
  ∧ fs w' !! ("depo" +:+ ".txt") = Some sample_text
  ∧ (∀ key, is_Some (entry_of "data/" key) →
       fs w' !! key = fs sample_world !! key)
  ∧ (∀ collection,
       collection ∈ collection_list_of (listdir "data/" (fs w'))
       ↔ collection
         ∈ collection_list_of (listdir "data/" (fs sample_world))).
Proof.
  apply (new_collection_in_working_directory demo_env
           (upload "depo" sample_text) sample_world sample_text sample_text);
    first [reflexivity | vm_compute; reflexivity].
Defined.

(** The upload "depo" into the sample directory: the text is in
    [depo.txt] of the working directory, there is no [data/depo.txt], and
    the selector still offers the sample and the create option only. *)
Lemma new_collection_not_under_data :
  let w' := (initialize_BM25Retriever demo_env (upload "depo" sample_text)
               sample_world).2 in
  fs w' !! "depo.txt" = Some sample_text
  ∧ fs w' !! "data/depo.txt" = None
  ∧ collection_list_of (listdir "data/" (fs w'))
    = ["Sample1.txt"; "Create new collection"].
Proof. cbv zeta. by vm_compute. Qed.

(** ** Retrieval *)

Lemma load_BM25Retriever_run env filepath w :
  load_BM25Retriever env filepath w =
  let path := "data/" +:+ py_str filepath in
  match fs w !! path with
  | None => (Raise (FileNotFoundError path), w)
  | Some data =>
      (match decode_text env data with
       | Ok text =>
           from_documents env
             (DocList (split_documents env [mkDocument text path]))
       | Raise e => Raise e
       end, w)
  end.
Proof.
  unfold load_BM25Retriever, text_loader_load. cbv zeta.
  rewrite !bind_assoc.
  destruct (fs w !! _) as [data|] eqn:Hfile.
  - rewrite (bind_read_file _ data) by done. cbv beta.
    rewrite !bind_assoc, bind_lift.
    destruct (decode_text env data) as [text|e]; [|done].
    rewrite bind_ret. cbv beta. unfold lift.
    by destruct (from_documents env _).
  - unfold bind at 1, read_file. by rewrite Hfile.
Qed.

(** ** Voices *)

(** C10. The selectable voice labels are exactly Adam, Onyx, Nova and
    Ocean, each once; whatever the user picks in the select box is one of
    them; and each of them has one entry in [voice_dict], whose value is a
    voice of the speech service, so [voice_dict[voice_key]] does not
    fail. *)
Theorem voice_lookup_never_fails :
  dict_keys voice_dict = ["Adam"; "Onyx"; "Nova"; "Ocean"]
  ∧ NoDup (dict_keys voice_dict)
  ∧ (∀ pick, ∃ label,
       picked (dict_keys voice_dict) pick = Some label
       ∧ label ∈ dict_keys voice_dict)
  ∧ (∀ label, label ∈ dict_keys voice_dict →
       ∃ voice, dict_get voice_dict (Some label) = Ok voice
                ∧ voice ∈ tts_voices
                ∧ ∀ voice', (label, voice') ∈ voice_dict → voice' = voice).
Proof.
  split; [reflexivity|]. split; [|split].
  - apply NoDup_ListNoDup. cbn. repeat constructor; cbn; intuition discriminate.
  - intros pick.
    do 4 (destruct pick as [|pick];
          [eexists; split; [reflexivity | cbn; set_solver]|]).
    eexists; split; [reflexivity | cbn; set_solver].
  - intros label Hlabel. cbn in Hlabel.
    repeat (apply elem_of_cons in Hlabel as [->|Hlabel]);
      [..|by apply elem_of_nil in Hlabel];
      (eexists; split; [reflexivity|]); (split; [unfold tts_voices; set_solver|]);
      intros voice' Hin; unfold voice_dict in Hin;
      repeat (apply elem_of_cons in Hin as [[=]|Hin]); try done;
      by apply elem_of_nil in Hin.
Qed.

Lemma voice_lookup_never_fails_witness :
  ∃ voice, dict_get voice_dict (Some "Ocean") = Ok voice
           ∧ voice ∈ tts_voices
           ∧ ∀ voice', ("Ocean", voice') ∈ voice_dict → voice' = voice.
Proof.
  apply (proj2 (proj2 (proj2 voice_lookup_never_fails)) "Ocean").
  cbn. set_solver.
Defined.

(** * Further properties of the code *)

(** ** More on one turn *)

(** [run_chatbot] with a retriever, run: every way a turn can go. *)
Lemma run_chatbot_run env llm (retriever : Retriever env) cq qa voice_key ui w :
  run_chatbot env llm (Some retriever) cq qa voice_key ui w =
  match audio_recorder ui with
  | Some ((_ :: _) as audio) =>
      let w0 := emit (EvAudioWidget audio) (emit (EvRecorder (Some audio)) w) in
      let w1 := emit (EvTranscribe audio)
                  (with_fs (<["Question.wav" := audio]> (fs w0)) w0) in
      match transcriptions_create env (fs w1) audio with
      | (Raise e, files) => (Raise e, with_fs files w1)
      | (Ok user_input, files) =>
          let w2 := emit (EvInvoke user_input [])
                      (with_fs (delete "Question.wav" files) w1) in
          match rag_invoke env (rag_chain_of llm retriever cq qa)
                  user_input [] with
          | Raise e => (Raise e, w2)
          | Ok response =>
              match dict_get voice_dict voice_key with
              | Raise e => (Raise e, w2)
              | Ok voice =>
                  let w3 := emit (EvSpeech voice response) w2 in
                  match speech_create env "tts-1" voice response with
                  | Raise e => (Raise e, w3)
                  | Ok speech =>
                      let entries :=
                        default [] (session_state w)
                        ++ [("You", user_input); ("Bot", response)] in
                      (Ok tt,
                       mkWorld (<["speech.wav" := speech]> (fs w3))
                         (Some entries)
                         (trace w3
                          ++ [EvLogAppend "You" user_input;
                              EvLogAppend "Bot" response]
                          ++ (render_turn <$> entries)
                          ++ [EvMarkdown (audio_tag (b64encode_str speech))
                                true]))
                  end
              end
          end
      end
  | silence => (Ok tt, emit (EvRecorder silence) w)
  end.
Proof.
  unfold run_chatbot, rag_chain_of.
  destruct (audio_recorder ui) as [[|b audio']|]; [done| |done].
  set (audio := b :: audio'). cbv zeta.
  do 2 run_step.
  unfold bind at 1. rewrite record_and_transcribe_run. cbn zeta. simpl_world.
  destruct (transcriptions_create env _ audio) as [[user_input|e] files];
    [|done].
  do 2 run_step.
  destruct (rag_invoke env _ user_input []) as [response|e]; [|done].
  run_step.
  destruct (dict_get voice_dict voice_key) as [voice|e]; [|done].
  unfold bind at 1. rewrite create_output_speech_run. cbn zeta.
  destruct (speech_create env _ voice response) as [speech|e]; [|done].
  do 4 run_step. simpl_world.
  unfold bind at 1. rewrite for_each_render. simpl_world.
  unfold convert_audio_to_base64, read_file, bind, ret, log. simpl_world.
  rewrite lookup_insert_eq. unfold emit. simpl_world.
  f_equal. f_equal.
  - by rewrite <- app_assoc.
  - rewrite <- !app_assoc. reflexivity.
Qed.

(** X1. Without a retriever, or without a recording (none, or an empty
    one), [run_chatbot] returns normally having called no service, written
    no file and left the conversation log alone; all it may have done is
    show the recorder. *)
Theorem run_chatbot_idle env llm (retriever : option (Retriever env))
    cq qa voice_key (ui : UIInput) (w : World) :
  retriever = None ∨ audio_recorder ui = None ∨ audio_recorder ui = Some [] →
  ∃ evs,
    run_chatbot env llm retriever cq qa voice_key ui w
    = (Ok tt, mkWorld (fs w) (session_state w) (trace w ++ evs))
    ∧ (evs = [] ∨ evs = [EvRecorder (audio_recorder ui)]).
Proof.
  intros Hidle. destruct retriever as [retriever|].
  - destruct Hidle as [?|Hsilent]; [done|].
    exists [EvRecorder (audio_recorder ui)]. split; [|by right].
    rewrite run_chatbot_run. by destruct Hsilent as [-> | ->].
  - exists []. split; [|by left]. cbn. by rewrite app_nil_r, world_eta.
Qed.

Lemma run_chatbot_idle_witness :
  ∃ evs,
    run_chatbot demo_env initialize_llm (Some []) [] (mkDocumentChain initialize_llm [])
      (Some "Adam") (mkUIInput 0 0 "" None false (Some [])) sample_world
    = (Ok tt, mkWorld (fs sample_world) (session_state sample_world)
                (trace sample_world ++ evs))
    ∧ (evs = [] ∨ evs = [EvRecorder (Some [])]).
Proof.
  apply (run_chatbot_idle demo_env initialize_llm (Some []) []
           (mkDocumentChain initialize_llm []) (Some "Adam")
           (mkUIInput 0 0 "" None false (Some [])) sample_world).
  right. right. reflexivity.
Defined.

(** X2. A turn in which every service answers: the question sent to the
    chain is the transcript of the recording, the text sent to the speech
    service is the chain's answer, spoken in the voice that [voice_dict]
    gives for the selected label, and the player is given the base64 of the
    synthesised audio.  Afterwards [speech.wav] holds that audio, the
    recording is gone and the log has grown by the two turns. *)
Theorem run_chatbot_dataflow env llm (retriever : Retriever env) cq qa
    voice_key (ui : UIInput) (w : World) (audio : list byte)
    (user_input response voice : string) (speech : list byte) (files : FS) :
  audio_recorder ui = Some audio →
  audio ≠ [] →
  transcriptions_create env (<["Question.wav" := audio]> (fs w)) audio
    = (Ok user_input, files) →
  rag_invoke env (rag_chain_of llm retriever cq qa) user_input []
    = Ok response →
  dict_get voice_dict voice_key = Ok voice →
  speech_create env "tts-1" voice response = Ok speech →
  run_chatbot env llm (Some retriever) cq qa voice_key ui w
  = (Ok tt,
     mkWorld (<["speech.wav" := speech]> (delete "Question.wav" files))
       (Some (default [] (session_state w)
              ++ [("You", user_input); ("Bot", response)]))
       (trace w ++ turn_events audio user_input response voice
                     (default [] (session_state w)) (b64encode_str speech))).
Proof.
  intros Hrec Hne Hwhisper Hchain Hvoice Hspeech.
  rewrite run_chatbot_run, Hrec. destruct audio as [|b audio']; [done|].
  cbv zeta. simpl_world. rewrite Hwhisper, Hchain, Hvoice, Hspeech.
  simpl_world. f_equal. f_equal. unfold turn_events.
  rewrite <- !app_assoc. reflexivity.
Qed.

Lemma run_chatbot_dataflow_witness :
  let audio := String.list_byte_of_string "Where were you?" in
  let answer := "Answer to: Where were you?" in
  run_chatbot demo_env initialize_llm (Some []) []
    (mkDocumentChain initialize_llm []) (Some "Ocean")
    (ask "Where were you?") sample_world
  = (Ok tt,
     mkWorld (<["speech.wav" := String.list_byte_of_string answer]>
                (delete "Question.wav"
                   (<["Question.wav" := audio]> (fs sample_world))))
       (Some (default [] (session_state sample_world)
              ++ [("You", "Where were you?"); ("Bot", answer)]))
       (trace sample_world
        ++ turn_events audio "Where were you?" answer "shimmer"
             (default [] (session_state sample_world))
             (b64encode_str (String.list_byte_of_string answer)))).
Proof.
  apply (run_chatbot_dataflow demo_env initialize_llm [] []
           (mkDocumentChain initialize_llm []) (Some "Ocean")
           (ask "Where were you?") sample_world
           (String.list_byte_of_string "Where were you?")
           "Where were you?" "Answer to: Where were you?" "shimmer"
           (String.list_byte_of_string "Answer to: Where were you?")
           (<["Question.wav" := String.list_byte_of_string "Where were you?"]>
              (fs sample_world)));
    first [reflexivity | discriminate].
Defined.

(** X3. When the transcription service fails, [record_and_transcribe]
    raises the service's error and does not clean up: with a service that
    leaves the files alone, [Question.wav] stays on disk holding the
    recording. *)
Theorem record_and_transcribe_failure_leaves_file
    (env : Env) (audio_bytes : list byte) (w : World) (e : Exn) :
  leaves_files env →
  (transcriptions_create env
     (<["Question.wav" := audio_bytes]> (fs w)) audio_bytes).1 = Raise e →
  (record_and_transcribe env audio_bytes w).1 = Raise e
  ∧ fs (record_and_transcribe env audio_bytes w).2 !! "Question.wav"
    = Some audio_bytes.
Proof.
  intros Hleaves Hfail. rewrite record_and_transcribe_run. cbv zeta.
  simpl_world.
  pose proof (Hleaves (<["Question.wav" := audio_bytes]> (fs w)) audio_bytes)
    as Hfiles.
  destruct (transcriptions_create env _ audio_bytes) as [[transcript|e'] files];
    simpl in *; [done|].
  split; [done|]. subst files. apply lookup_insert_eq.
Qed.

Lemma record_and_transcribe_failure_leaves_file_witness :
  (record_and_transcribe (stub_env whisper_down no_split) [x52; x49]
     sample_world).1 = Raise (ServiceError "service unavailable")
  ∧ fs (record_and_transcribe (stub_env whisper_down no_split) [x52; x49]
          sample_world).2 !! "Question.wav" = Some [x52; x49].
Proof.
  apply (record_and_transcribe_failure_leaves_file
           (stub_env whisper_down no_split) [x52; x49] sample_world
           (ServiceError "service unavailable")).
  - intros files audio. reflexivity.
  - reflexivity.
Defined.

(** X4. Synthesis followed by the playback encoding: when the speech
    service returns audio, [create_output_speech] stores it in
    [speech.wav] whatever was there before, and the string that
    [convert_audio_to_base64] then produces from [speech.wav] decodes to
    exactly that audio. *)
Theorem speech_then_playback (env : Env) (response_text voice : string)
    (audio : list byte) (w : World) :
  speech_create env "tts-1" voice response_text = Ok audio →
  ∃ w' audio_encoded,
    create_output_speech env response_text voice w = (Ok tt, w')
    ∧ fs w' = <["speech.wav" := audio]> (fs w)
    ∧ convert_audio_to_base64 "speech.wav" w' = (Ok audio_encoded, w')
    ∧ b64decode audio_encoded = Some audio.
Proof.
  intros Hspeech. rewrite create_output_speech_run. cbv zeta.
  rewrite Hspeech.
  eexists _, (b64encode_str audio). split; [reflexivity|].
  split; [reflexivity|]. split.
  - unfold convert_audio_to_base64, bind, read_file, ret. simpl_world.
    by rewrite lookup_insert_eq.
  - apply b64decode_b64encode_str.
Qed.

Lemma speech_then_playback_witness :
  let audio := String.list_byte_of_string "I was not present." in
  ∃ w' audio_encoded,
    create_output_speech demo_env "I was not present." "nova" sample_world
    = (Ok tt, w')
    ∧ fs w' = <["speech.wav" := audio]> (fs sample_world)
    ∧ convert_audio_to_base64 "speech.wav" w' = (Ok audio_encoded, w')
    ∧ b64decode audio_encoded = Some audio.
Proof.
  apply (speech_then_playback demo_env "I was not present." "nova"
           (String.list_byte_of_string "I was not present.") sample_world).
  reflexivity.
Defined.

(** ** The conversation log across a session *)

Section KeepsSession.
Lemma keeps_ret {A} (a : A) : keeps_session (ret a).
Proof. done. Qed.

Lemma keeps_lift {A} (r : Result A) : keeps_session (lift r).
Proof. done. Qed.

Lemma keeps_log e : keeps_session (log e).
Proof. done. Qed.

Lemma keeps_bind {A B} (m : M A) (k : A → M B) :
  keeps_session m → (∀ a, keeps_session (k a)) → keeps_session (bind m k).
Proof.
  intros Hm Hk w. unfold bind. specialize (Hm w).
  destruct (m w) as [[a|e] w1]; simpl in Hm; [|done].
  by rewrite Hk.
Qed.

Lemma keeps_write_file path data : keeps_session (write_file path data).
Proof. done. Qed.

Lemma keeps_read_file path : keeps_session (read_file path).
Proof. intros w. unfold read_file. by destruct (fs w !! path). Qed.

Lemma keeps_os_listdir dir : keeps_session (os_listdir dir).
Proof. done. Qed.

Lemma keeps_for_each {A} (xs : list A) (body : A → M unit) :
  (∀ x, keeps_session (body x)) → keeps_session (for_each xs body).
Proof.
  intros Hbody. induction xs as [|x xs IH]; cbn [for_each].
  - apply keeps_ret.
  - apply keeps_bind; [apply Hbody | intros _; apply IH].
Qed.
End KeepsSession.

Ltac keeps :=
  repeat first
    [ apply keeps_bind; [|intros ?]
    | apply keeps_ret | apply keeps_lift | apply keeps_log
    | apply keeps_write_file | apply keeps_read_file
    | apply keeps_os_listdir
    | apply keeps_for_each; intros ?
    | match goal with
      | |- keeps_session (match ?x with _ => _ end) => destruct x
      end ].

Lemma initialize_keeps_session env ui :
  keeps_session (initialize_BM25Retriever env ui).
Proof.
  unfold initialize_BM25Retriever, selectbox, create_new_collection_streamlit,
    load_BM25Retriever, read, text_loader_load.
  keeps.
Qed.

(** What a run of [run_chatbot] does to the stored log: nothing, or one
    exchange more. *)
Lemma run_chatbot_log env llm retriever cq qa voice_key ui w :
  let w' := (run_chatbot env llm retriever cq qa voice_key ui w).2 in
  session_state w' = session_state w
  ∨ ∃ user_input response,
      session_state w'
      = Some (default [] (session_state w)
              ++ [("You", user_input); ("Bot", response)]).
Proof.
  destruct retriever as [retriever|]; [|by left].
  cbv zeta. rewrite run_chatbot_run.
  destruct (audio_recorder ui) as [[|b audio']|]; [by left| |by left].
  cbv zeta. simpl_world.
  destruct (transcriptions_create env _ _) as [[user_input|e] files];
    [|by left].
  destruct (rag_invoke env _ user_input []) as [response|e]; [|by left].
  destruct (dict_get voice_dict voice_key) as [voice|e]; [|by left].
  destruct (speech_create env _ voice response) as [speech|e]; [|by left].
  right. by exists user_input, response.
Qed.

Lemma main_log env ui w :
  let w' := (main env ui w).2 in
  session_state w' = session_state w
  ∨ ∃ user_input response,
      session_state w'
      = Some (default [] (session_state w)
              ++ [("You", user_input); ("Bot", response)]).
Proof.
  cbv zeta. unfold main, selectbox.
  rewrite bind_log, bind_assoc, bind_log, bind_ret, bind_log.
  cbn [get_system_prompts create_prompts]. unfold bind.
  match goal with
  | |- context [initialize_BM25Retriever env ui ?w0] =>
      pose proof (initialize_keeps_session env ui w0) as Hinit;
      destruct (initialize_BM25Retriever env ui w0) as [[retriever|e] w1]
  end; simpl in Hinit.
  - match goal with
    | |- context [run_chatbot env ?llm retriever ?cq ?qa ?vk ui w1] =>
        destruct (run_chatbot_log env llm retriever cq qa vk ui w1)
          as [Hsame|(user_input & response & Hmore)]
    end.
    + left. by rewrite Hsame, Hinit.
    + right. exists user_input, response. by rewrite Hmore, Hinit.
  - left. exact Hinit.
Qed.

Lemma exchanges_app (old new : list (string * string)) :
  exchanges old = true → exchanges new = true →
  exchanges (old ++ new) = true.
Proof.
  revert old. fix IH 1. intros [|[asker q] [|[answerer a] rest]]; [done..|].
  cbn [exchanges app]. intros [Hhead Hrest]%andb_prop Hnew.
  by rewrite Hhead, IH.
Qed.

(** X5. The conversation log is append-only and made of exchanges: over
    any session, whatever the user does and whether or not turns fail, the
    log at the end is the log at the start followed by entries that come
    in pairs, a ["You"] entry and then a ["Bot"] entry. *)
Theorem session_log_append_only (env : Env) (runs : list UIInput) (w : World) :
  ∃ new_entries,
    default [] (session_state (session env runs w))
    = default [] (session_state w) ++ new_entries
    ∧ exchanges new_entries = true.
Proof.
  revert w. induction runs as [|ui runs IH]; intros w; cbn [session].
  - exists []. by rewrite app_nil_r.
  - destruct (IH (main env ui w).2) as (later & Hlater & Hpairs).
    destruct (main_log env ui w) as [Hsame|(user_input & response & Hmore)].
    + exists later. by rewrite Hlater, Hsame.
    + exists ([("You", user_input); ("Bot", response)] ++ later). split.
      * rewrite Hlater, Hmore. cbn [default from_option id].
        by rewrite <- app_assoc.
      * by apply exchanges_app.
Qed.

(** ** The files a run touches *)

Section Touches.
Context (K : string → Prop).














End Touches.




(** ** What the services are called with *)

Lemma dict_get_value (d : dict) k v : dict_get d k = Ok v → v ∈ d.*2.
Proof.
  induction d as [|[k' v'] d IH]; cbn [dict_get]; [done|].
  destruct (decide (k = Some k')); cbn [fmap list_fmap snd].
  - intros [= ->]. apply list_elem_of_here.
  - intros Hget. apply list_elem_of_further. by apply IH.
Qed.

Lemma run_chatbot_emits (P : Event → Prop) env llm retriever cq qa
    voice_key ui :
  (∀ audio, P (EvRecorder audio)) →
  (∀ audio, P (EvAudioWidget audio)) →
  (∀ audio, audio ≠ [] → P (EvTranscribe audio)) →
  (∀ input, P (EvInvoke input [])) →
  (∀ voice input, voice ∈ voice_dict.*2 → P (EvSpeech voice input)) →
  (∀ role text, P (EvLogAppend role text)) →
  (∀ body html, P (EvMarkdown body html)) →
  emits_only P (run_chatbot env llm retriever cq qa voice_key ui).
Proof.
  intros Hrec Haudio Htrans Hinv Hspeech Happend Hmark w.
  destruct retriever as [retriever|];
    [|exists []; split; [by rewrite app_nil_r | constructor]].
  rewrite run_chatbot_run.
  destruct (audio_recorder ui) as [[|b audio']|];
    [by exists [EvRecorder (Some [])]; split; [|repeat constructor] |
    |by exists [EvRecorder None]; split; [|repeat constructor]].
  cbv zeta. simpl_world.
  assert (Hne : b :: audio' ≠ []) by done.
  destruct (transcriptions_create env _ _) as [[user_input|e] files].
  2:{ simpl_world. eexists. split; [by rewrite <- !app_assoc|].
      repeat constructor; auto. }
  destruct (rag_invoke env _ user_input []) as [response|e].
  2:{ simpl_world. eexists. split; [by rewrite <- !app_assoc|].
      repeat constructor; auto. }
  destruct (dict_get voice_dict voice_key) as [voice|e] eqn:Hvoice.
  2:{ simpl_world. eexists. split; [by rewrite <- !app_assoc|].
      repeat constructor; auto. }
  apply dict_get_value in Hvoice.
  destruct (speech_create env _ voice response) as [speech|e].
  2:{ simpl_world. eexists. split; [by rewrite <- !app_assoc|].
      repeat constructor; auto. }
  simpl_world. eexists. split; [by rewrite <- !app_assoc|].
  repeat (apply Forall_cons; split; [by auto|]).
  apply Forall_app. split; [|by repeat constructor].
  apply Forall_fmap, Forall_forall. intros entry _. apply Hmark.
Qed.

Lemma main_emits (P : Event → Prop) env ui :
  (∀ text, P (EvHeader text)) →
  (∀ label options, P (EvSelectbox label options)) →
  (∀ label, P (EvTextInput label)) →
  (∀ label file_type, P (EvFileUploader label file_type)) →
  (∀ label, P (EvButton label)) →
  (∀ audio, P (EvRecorder audio)) →
  (∀ audio, P (EvAudioWidget audio)) →
  (∀ audio, audio ≠ [] → P (EvTranscribe audio)) →
  (∀ input, P (EvInvoke input [])) →
  (∀ voice input, voice ∈ voice_dict.*2 → P (EvSpeech voice input)) →
  (∀ role text, P (EvLogAppend role text)) →
  (∀ body html, P (EvMarkdown body html)) →
  emits_only P (main env ui).
Proof.
  intros Hhead Hsel Htext Hupload Hbutton Hrec Haudio Htrans Hinv Hspeech
    Happend Hmark.
  unfold main, selectbox, initialize_BM25Retriever, selectbox,
    create_new_collection_streamlit, load_BM25Retriever, read,
    text_loader_load.
  cbn [get_system_prompts create_prompts].
  repeat first
    [ apply emits_bind; [|intros ?]
    | apply emits_ret | apply emits_lift | apply emits_write_file
    | apply emits_read_file | apply emits_os_listdir
    | apply emits_log; auto
    | apply emits_for_each; intros ?
    | by apply run_chatbot_emits
    | match goal with
      | |- emits_only _ (match ?x with _ => _ end) => destruct x
      end ].
Qed.

Lemma session_emits (P : Event → Prop) env runs w :
  (∀ ui, emits_only P (main env ui)) →
  ∃ evs, trace (session env runs w) = trace w ++ evs ∧ Forall P evs.
Proof.
  intros Hmain. revert w.
  induction runs as [|ui runs IH]; intros w; cbn [session].
  - exists []. by rewrite app_nil_r.
  - destruct (Hmain ui w) as (evs & Htr & Hevs).
    destruct (IH (main env ui w).2) as (evs' & Htr' & Hevs').
    exists (evs ++ evs'). split.
    + by rewrite Htr', Htr, app_assoc.
    + by apply Forall_app.
Qed.

(** X7. In any session the speech service is only ever asked for one of
    the voices of [voice_dict] (alloy, onyx, nova, shimmer), and the
    transcription service is only ever given a recording that is not
    empty. *)
Theorem session_service_calls (env : Env) (runs : list UIInput) (w : World) :
  ∃ evs,
    trace (session env runs w) = trace w ++ evs
    ∧ Forall (λ e, speaks_configured_voice e ∧ transcribes_recording e) evs.
Proof.
  apply session_emits. intros ui.
  apply main_emits; try done.
Qed.

(** ** The shape of the base64 text *)

Lemma b64_char_in_alphabet n : (n < 64)%N → b64_char n ∈ b64_alphabet.
Proof.
  intros Hn. unfold b64_char. apply list_elem_of_In, nth_In.
  change (length b64_alphabet) with 64. lia.
Qed.

Lemma ind_by_three {A} (P : list A → Prop) :
  P [] → (∀ a, P [a]) → (∀ a b, P [a; b]) →
  (∀ a b c rest, P rest → P (a :: b :: c :: rest)) →
  ∀ l, P l.
Proof.
  intros Hnil Hone Htwo Hstep. fix IH 1.
  intros [|a [|b [|c rest]]]; [done..|]. apply Hstep, IH.
Qed.

Lemma b64encode_shape (data : list byte) :
  length (b64encode data) = 4 * ((length data + 2) / 3)
  ∧ Forall (λ c, c ∈ b64_alphabet ∨ c = b64_pad) (b64encode data)
  ∧ Forall (λ c, c ≠ "034"%char ∧ c ≠ "<"%char ∧ c ≠ ">"%char)
      (b64encode data).
Proof.
  assert (Hsafe : ∀ c, c ∈ b64_alphabet ∨ c = b64_pad →
            c ≠ "034"%char ∧ c ≠ "<"%char ∧ c ≠ ">"%char).
  { intros c [Hc| ->]; [|by repeat split].
    apply list_elem_of_In in Hc. cbn in Hc.
    repeat (destruct Hc as [<-|Hc]; [by repeat split|]). done. }
  assert (Hin : ∀ g i, b64_char (sextet g i) ∈ b64_alphabet ∨
                       b64_char (sextet g i) = b64_pad).
  { intros g i. left. apply b64_char_in_alphabet, sextet_lt. }
  induction data as [| a | a b | a b c rest (IHlen & IHin & IHsafe)]
    using ind_by_three.
  - repeat split; constructor.
  - cbn [b64encode]. split; [done|].
    split; repeat (apply Forall_cons; split; auto); constructor.
  - cbn [b64encode]. split; [done|].
    split; repeat (apply Forall_cons; split; auto); constructor.
  - cbn [b64encode]. split; [|split].
    + cbn [length]. rewrite IHlen.
      replace (S (S (S (length rest))) + 2) with (length rest + 2 + 1 * 3)
        by lia.
      rewrite Nat.div_add by done. lia.
    + by repeat (apply Forall_cons; split; auto).
    + by repeat (apply Forall_cons; split; auto).
Qed.

Lemma length_string_of_list_ascii (cs : list ascii) :
  String.length (String.string_of_list_ascii cs) = length cs.
Proof. induction cs as [|c cs IH]; [done|]. cbn. by rewrite IH. Qed.

(** X8. The text that [convert_audio_to_base64] produces for the player
    has four characters for every three bytes of the file, rounded up,
    and is made of the 64 characters of the base64 alphabet and [=] only:
    it contains no quote and no angle bracket, so it cannot end the [src]
    attribute of the audio tag it is put in. *)
Theorem playback_text_shape (audio_file_path : string) (data : list byte)
    (w : World) :
  fs w !! audio_file_path = Some data →
  ∃ audio_encoded,
    convert_audio_to_base64 audio_file_path w = (Ok audio_encoded, w)
    ∧ String.length audio_encoded = 4 * ((length data + 2) / 3)
    ∧ Forall (λ c, (c ∈ b64_alphabet ∨ c = b64_pad)
                   ∧ c ≠ "034"%char ∧ c ≠ "<"%char ∧ c ≠ ">"%char)
        (String.list_ascii_of_string audio_encoded).
Proof.
  intros Hfile. exists (b64encode_str data).
  destruct (b64encode_shape data) as (Hlen & Hin & Hsafe).
  split; [|split].
  - unfold convert_audio_to_base64, bind, read_file, ret. by rewrite Hfile.
  - unfold b64encode_str. by rewrite length_string_of_list_ascii.
  - unfold b64encode_str.
    rewrite String.list_ascii_of_string_of_list_ascii.
    apply Forall_and. by split.
Qed.

Lemma playback_text_shape_witness :
  let w := session demo_env [ask "Where were you?"] sample_world in
  let speech := String.list_byte_of_string "Answer to: Where were you?" in
  ∃ audio_encoded,
    convert_audio_to_base64 "speech.wav" w = (Ok audio_encoded, w)
    ∧ String.length audio_encoded = 4 * ((length speech + 2) / 3)
    ∧ Forall (λ c, (c ∈ b64_alphabet ∨ c = b64_pad)
                   ∧ c ≠ "034"%char ∧ c ≠ "<"%char ∧ c ≠ ">"%char)
        (String.list_ascii_of_string audio_encoded).
Proof.
  apply (playback_text_shape "speech.wav"
           (String.list_byte_of_string "Answer to: Where were you?")
           (session demo_env [ask "Where were you?"] sample_world)).
  vm_compute. reflexivity.
Defined.

(** ** The collection selector *)

Lemma endswith_refl s : endswith s s = true.
Proof. destruct s; cbn [endswith]; by rewrite String.eqb_refl. Qed.

Lemma endswith_app s suffix : endswith (s +:+ suffix) suffix = true.
Proof.
  induction s as [|c s IH].
  - rewrite app_empty_l. apply endswith_refl.
  - rewrite app_String. cbn [endswith]. rewrite IH. by case_match.
Qed.

(** X9. The options of the collection selector are the [.txt] entries of
    the listing followed by the create option, which is always there and
    always last; no entry of the directory can take its place, so picking
    any earlier position selects a [.txt] entry of the directory and is
    never taken for a request to create a collection. *)
Theorem create_option_is_last (files : list string) :
  let options := collection_list_of files in
  let n := length options - 1 in
  options !! n = Some "Create new collection"
  ∧ picked options n = Some "Create new collection"
  ∧ ∀ pick, pick < n →
      ∃ name, picked options pick = Some name
              ∧ name ≠ "Create new collection"
              ∧ name ∈ files ∧ endswith name ".txt" = true.
Proof.
  cbv zeta. unfold collection_list_of, picked.
  set (txts := List.filter (λ file, endswith file ".txt") files).
  rewrite List.length_app. cbn [length].
  replace (length txts + 1 - 1) with (length txts) by lia.
  assert (Hlast : (txts ++ ["Create new collection"]) !! length txts
                  = Some "Create new collection").
  { by rewrite lookup_app_r, Nat.sub_diag. }
  split; [done|]. split; [by rewrite Hlast|].
  intros pick Hpick.
  destruct (lookup_lt_is_Some_2 txts pick Hpick) as [name Hname].
  exists name. rewrite lookup_app_l, Hname by done. split; [done|].
  apply list_elem_of_lookup_2, list_elem_of_In, filter_In in Hname
    as [Hin Htxt].
  split; [|split; [by apply list_elem_of_In | done]].
  intros ->. by vm_compute in Htxt.
Qed.

Lemma create_option_is_last_witness :
  ∃ name, picked (collection_list_of ["notes.md"; "Sample1.txt"]) 0
          = Some name
          ∧ name ≠ "Create new collection"
          ∧ name ∈ ["notes.md"; "Sample1.txt"]
          ∧ endswith name ".txt" = true.
Proof.
  apply (proj2 (proj2 (create_option_is_last ["notes.md"; "Sample1.txt"]))).
  vm_compute. lia.
Defined.

(** The start of [initialize_BM25Retriever], run up to the selection. *)
Lemma initialize_select_run env ui w :
  initialize_BM25Retriever env ui w =
  let options := collection_list_of (listdir "data/" (fs w)) in
  let w1 := emit (EvSelectbox "Select a collection or create a new one:"
                    options) w in
  let collection_name_str := picked options (collection_pick ui) in
  if decide (collection_name_str = Some "Create new collection") then
    (if submit_button ui then
       match str_truthy (text_input ui), file_uploader ui with
       | true, Some uploaded =>
           write_file (text_input ui +:+ ".pdf") uploaded ;;
           returned <- create_new_collection_streamlit env
                         (text_input ui) (text_input ui) ;;
           unpacked <- lift (unpack2 returned) ;;
           let '(db, splits) := unpacked in
           retriever <- lift (from_documents env (OneDoc splits)) ;;
           ret (Some retriever)
       | _, _ => ret None
       end
     else ret None)
      (mkWorld (fs w) (session_state w) (trace w1 ++ upload_form))
  else
    (retriever <- load_BM25Retriever env collection_name_str ;;
     ret (Some retriever)) w1.
Proof.
  unfold initialize_BM25Retriever, selectbox.
  rewrite bind_os_listdir. cbv beta zeta.
  rewrite bind_assoc, bind_log, bind_ret. cbv beta.
  case_decide; [|done]. by rewrite bind_upload_form.
Qed.

(** The load path of [initialize_BM25Retriever], run. *)
Lemma initialize_load_run env ui w name data text :
  picked (collection_list_of (listdir "data/" (fs w))) (collection_pick ui)
    = Some name →
  name ≠ "Create new collection" →
  fs w !! ("data/" +:+ name) = Some data →
  decode_text env data = Ok text →
  initialize_BM25Retriever env ui w
  = (match from_documents env
             (DocList (split_documents env
                         [mkDocument text ("data/" +:+ name)])) with
     | Ok retriever => Ok (Some retriever)
     | Raise e => Raise e
     end,
     emit (EvSelectbox "Select a collection or create a new one:"
             (collection_list_of (listdir "data/" (fs w)))) w).
Proof.
  intros Hpick Hname Hfile Htext. rewrite initialize_select_run. cbv zeta.
  rewrite Hpick, decide_False by congruence.
  unfold bind at 1. rewrite load_BM25Retriever_run. cbv zeta.
  cbn [py_str]. simpl_world. rewrite Hfile, Htext.
  by destruct (from_documents env _).
Qed.

(** X10. Selecting an existing collection builds the retriever from that
    collection's current text under [data/] and from nothing else: the
    upload form is not looked at, and no file and no stored state is
    changed. *)
Theorem existing_collection_is_loaded (env : Env) (ui : UIInput) (w : World)
    (name : string) (data : list byte) (text : string) :
  picked (collection_list_of (listdir "data/" (fs w))) (collection_pick ui)
    = Some name →
  name ≠ "Create new collection" →
  fs w !! ("data/" +:+ name) = Some data →
  decode_text env data = Ok text →
  initialize_BM25Retriever env ui w
  = (match from_documents env
             (DocList (split_documents env
                         [mkDocument text ("data/" +:+ name)])) with
     | Ok retriever => Ok (Some retriever)
     | Raise e => Raise e
     end,
     emit (EvSelectbox "Select a collection or create a new one:"
             (collection_list_of (listdir "data/" (fs w)))) w).
Proof. apply initialize_load_run. Qed.

Lemma existing_collection_is_loaded_witness :
  initialize_BM25Retriever demo_env (ask "Where were you?") sample_world
  = (match from_documents demo_env
             (DocList (split_documents demo_env
                         [mkDocument (String.string_of_list_byte sample_text)
                            ("data/" +:+ "Sample1.txt")])) with
     | Ok retriever => Ok (Some retriever)
     | Raise e => Raise e
     end,
     emit (EvSelectbox "Select a collection or create a new one:"
             (collection_list_of (listdir "data/" (fs sample_world))))
       sample_world).
Proof.
  apply (existing_collection_is_loaded demo_env (ask "Where were you?")
           sample_world "Sample1.txt" sample_text
           (String.string_of_list_byte sample_text));
    first [discriminate | vm_compute; reflexivity].
Defined.

(** X11. With the create option selected and the form incomplete (not
    submitted, or no name typed, or no file chosen), a run of the script
    shows the page head and the upload form (name field, file chooser,
    Submit button) and nothing else: it returns normally, writes no file,
    leaves the log alone, calls no service and does not show the
    recorder. *)
Theorem main_incomplete_form_is_inert (env : Env) (ui : UIInput) (w : World) :
  picked (collection_list_of (listdir "data/" (fs w))) (collection_pick ui)
    = Some "Create new collection" →
  submit_button ui = false ∨ text_input ui = "" ∨ file_uploader ui = None →
  main env ui w
  = (Ok tt, mkWorld (fs w) (session_state w)
              (trace w ++ page_head (fs w) ++ upload_form)).
Proof.
  intros Hpick Hform. unfold main, selectbox.
  rewrite bind_log, bind_assoc, bind_log, bind_ret, bind_log.
  cbn [get_system_prompts create_prompts].
  unfold bind at 1. rewrite initialize_select_run. cbv zeta. simpl_world.
  rewrite Hpick, decide_True by done.
  assert (Hnone :
    (if submit_button ui then
       match str_truthy (text_input ui), file_uploader ui with
       | true, Some uploaded =>
           write_file (text_input ui +:+ ".pdf") uploaded ;;
           returned <- create_new_collection_streamlit env
                         (text_input ui) (text_input ui) ;;
           unpacked <- lift (unpack2 returned) ;;
           let '(db, splits) := unpacked in
           retriever <- lift (from_documents env (OneDoc splits)) ;;
           ret (Some retriever)
       | _, _ => ret None
       end
     else ret None) = ret None).
  { destruct Hform as [-> | [-> | ->]]; [done | by case_match |].
    by repeat case_match. }
  rewrite Hnone. unfold ret. cbn [run_chatbot]. unfold ret, emit, page_head.
  simpl_world. by rewrite <- !app_assoc.
Qed.

Lemma main_incomplete_form_is_inert_witness :
  main demo_env (mkUIInput 0 1 "depo" None true None) sample_world
  = (Ok tt, mkWorld (fs sample_world) (session_state sample_world)
              (trace sample_world ++ page_head (fs sample_world)
               ++ upload_form)).
Proof.
  apply (main_incomplete_form_is_inert demo_env
           (mkUIInput 0 1 "depo" None true None) sample_world).
  - vm_compute. reflexivity.
  - right. right. reflexivity.
Defined.

Lemma first_component_slash_free s :
  slash_free s = true → first_component s = s.
Proof.
  induction s as [|c s IH]; [done|]. cbn [slash_free first_component].
  intros [Hc Hs]%andb_prop. apply negb_true_iff in Hc. rewrite Hc.
  by rewrite IH.
Qed.

(** X12. The typed collection name is used as a path as it is: a name of
    the form [data/<n>] makes the create path write the collection text to
    [data/<n>.txt], and [<n>.txt] is then among the collections offered
    for selection. *)
Theorem collection_named_into_data_is_listed (env : Env) (ui : UIInput)
    (w : World) (pdf text : list byte) (n : string) :
  picked (collection_list_of (listdir "data/" (fs w))) (collection_pick ui)
    = Some "Create new collection" →
  submit_button ui = true →
  text_input ui = "data/" +:+ n →
  slash_free n = true →
  file_uploader ui = Some pdf →
  pdf_to_text env pdf = Ok text →
  let w' := (initialize_BM25Retriever env ui w).2 in
  fs w' !! ("data/" +:+ n +:+ ".txt") = Some text
  ∧ (n +:+ ".txt") ∈ collection_list_of (listdir "data/" (fs w')).
Proof.
  intros Hpick Hsubmit Hname Hfree Hfile Hpdf w'. subst w'.
  rewrite (initialize_create_world env ui w pdf text); [| by rewrite ?Hname..].
  rewrite Hname.
  assert (Hkey : ("data/" +:+ n) +:+ ".txt" = "data/" +:+ n +:+ ".txt")
    by reflexivity.
  rewrite Hkey. split; [apply lookup_insert_eq|].
  apply elem_of_collection_list_of. left. split; [|apply endswith_app].
  apply elem_of_listdir. exists ("data/" +:+ n +:+ ".txt"). split.
  - rewrite lookup_insert_eq. eauto.
  - unfold entry_of.
    change (strip_prefix "data/" ("data/" +:+ n +:+ ".txt"))
      with (Some (n +:+ ".txt")).
    cbn [mbind option_bind]. rewrite first_component_slash_free.
    + by destruct n.
    + by rewrite slash_free_app, Hfree.
Qed.

Lemma collection_named_into_data_is_listed_witness :
  let w' := (initialize_BM25Retriever demo_env
               (upload "data/depo" sample_text) sample_world).2 in
  fs w' !! ("data/" +:+ "depo" +:+ ".txt") = Some sample_text
  ∧ ("depo" +:+ ".txt") ∈ collection_list_of (listdir "data/" (fs w')).
Proof.
  apply (collection_named_into_data_is_listed demo_env
           (upload "data/depo" sample_text) sample_world sample_text
           sample_text "depo");
    first [reflexivity | vm_compute; reflexivity].
Defined.

(** X13. When the text of the uploaded PDF cannot be extracted, the create
    path raises the extractor's error: the upload has been written as
    [<name>.pdf] and stays, no text file is written and no retriever is
    built. *)
Theorem unparseable_upload (env : Env) (ui : UIInput) (w : World)
    (pdf : list byte) (e : Exn) :
  picked (collection_list_of (listdir "data/" (fs w))) (collection_pick ui)
    = Some "Create new collection" →
  submit_button ui = true →
  str_truthy (text_input ui) = true →
  file_uploader ui = Some pdf →
  pdf_to_text env pdf = Raise e →
  initialize_BM25Retriever env ui w
  = (Raise e,
     mkWorld (<[text_input ui +:+ ".pdf" := pdf]> (fs w)) (session_state w)
       (trace w ++ EvSelectbox "Select a collection or create a new one:"
                     (collection_list_of (listdir "data/" (fs w)))
                   :: upload_form)).
Proof.
  intros Hpick Hsubmit Hname Hfile Hpdf. rewrite initialize_select_run.
  cbv zeta. rewrite Hpick, decide_True by done.
  rewrite Hsubmit, Hname, Hfile, bind_write_file.
  unfold create_new_collection_streamlit, read. cbn [for_each].
  rewrite !bind_assoc.
  rewrite (bind_read_file _ pdf) by (simpl_world; apply lookup_insert_eq).
  cbv beta. rewrite !bind_assoc, bind_lift, Hpdf.
  unfold with_fs. simpl_world. by rewrite <- app_assoc.
Qed.

Lemma unparseable_upload_witness :
  initialize_BM25Retriever unreadable_pdf_env (upload "depo" [x00])
    sample_world
  = (Raise (ServiceError "not a PDF"),
     mkWorld (<["depo" +:+ ".pdf" := [x00]]> (fs sample_world))
       (session_state sample_world)
       (trace sample_world
        ++ EvSelectbox "Select a collection or create a new one:"
             (collection_list_of (listdir "data/" (fs sample_world)))
           :: upload_form)).
Proof.
  apply (unparseable_upload unreadable_pdf_env
           (upload "depo" [x00]) sample_world [x00]
           (ServiceError "not a PDF"));
    first [reflexivity | vm_compute; reflexivity].
Defined.

Lemma dict_get_missing (d : dict) k :
  k ∉ Some <$> dict_keys d → dict_get d k = Raise (KeyError k).
Proof.
  induction d as [|[k' v] d IH]; [done|].
  cbn [dict_keys fmap list_fmap fst dict_get]. intros Hk.
  apply not_elem_of_cons in Hk as [Hne Hk].
  rewrite decide_False by done. by apply IH.
Qed.

(** X14. A voice label that is not a key of [voice_dict] is only found out
    after the work is done: the recording has been transcribed and the
    chain has answered when the lookup raises [KeyError]; nothing is
    spoken, the log is left alone and the recording has been deleted. *)
Theorem run_chatbot_unknown_voice env llm (retriever : Retriever env) cq qa
    (voice_key : option string) (ui : UIInput) (w : World)
    (audio : list byte) (user_input response : string) (files : FS) :
  audio_recorder ui = Some audio →
  audio ≠ [] →
  voice_key ∉ Some <$> dict_keys voice_dict →
  transcriptions_create env (<["Question.wav" := audio]> (fs w)) audio
    = (Ok user_input, files) →
  rag_invoke env (rag_chain_of llm retriever cq qa) user_input []
    = Ok response →
  run_chatbot env llm (Some retriever) cq qa voice_key ui w
  = (Raise (KeyError voice_key),
     mkWorld (delete "Question.wav" files) (session_state w)
       (trace w ++ [EvRecorder (Some audio); EvAudioWidget audio;
                    EvTranscribe audio; EvInvoke user_input []])).
Proof.
  intros Hrec Hne Hvoice Hwhisper Hchain.
  rewrite run_chatbot_run, Hrec. destruct audio as [|b audio']; [done|].
  cbv zeta. simpl_world.
  rewrite Hwhisper, Hchain, (dict_get_missing _ _ Hvoice). simpl_world.
  unfold emit, with_fs. simpl_world. by rewrite <- !app_assoc.
Qed.

Lemma run_chatbot_unknown_voice_witness :
  let audio := String.list_byte_of_string "Hi" in
  run_chatbot demo_env initialize_llm (Some []) []
    (mkDocumentChain initialize_llm []) (Some "Echo") (ask "Hi") sample_world
  = (Raise (KeyError (Some "Echo")),
     mkWorld (delete "Question.wav"
                (<["Question.wav" := audio]> (fs sample_world)))
       (session_state sample_world)
       (trace sample_world
        ++ [EvRecorder (Some audio); EvAudioWidget audio;
            EvTranscribe audio; EvInvoke "Hi" []])).
Proof.
  apply (run_chatbot_unknown_voice demo_env initialize_llm [] []
           (mkDocumentChain initialize_llm []) (Some "Echo") (ask "Hi")
           sample_world (String.list_byte_of_string "Hi") "Hi"
           "Answer to: Hi"
           (<["Question.wav" := String.list_byte_of_string "Hi"]>
              (fs sample_world)));
    try reflexivity; try discriminate.
  cbn. intros Hin%list_elem_of_In. cbn in Hin. intuition discriminate.
Defined.

(** X15. A whole run on an existing collection with a recorded question,
    every service answering: the chain that answers is built with the
    [gpt-4o] model at temperature 0, the two prompt templates and the
    retriever made from the selected collection's current text; the run
    shows the page head and then the events of the turn, and leaves the
    answer's audio in [speech.wav] and one exchange more in the log. *)
Theorem main_answers_from_selected_collection (env : Env) (ui : UIInput)
    (w : World) (name : string) (data : list byte) (text : string)
    (retriever : Retriever env) (audio : list byte)
    (user_input response voice : string) (speech : list byte) (files : FS) :
  picked (collection_list_of (listdir "data/" (fs w))) (collection_pick ui)
    = Some name →
  name ≠ "Create new collection" →
  fs w !! ("data/" +:+ name) = Some data →
  decode_text env data = Ok text →
  from_documents env
    (DocList (split_documents env [mkDocument text ("data/" +:+ name)]))
    = Ok retriever →
  audio_recorder ui = Some audio →
  audio ≠ [] →
  transcriptions_create env (<["Question.wav" := audio]> (fs w)) audio
    = (Ok user_input, files) →
  rag_invoke env
    (rag_chain_of initialize_llm retriever
       (create_prompts ContextualizeQ WitnessQA).1
       (initialize_question_answer_chain initialize_llm
          (create_prompts ContextualizeQ WitnessQA).2))
    user_input [] = Ok response →
  dict_get voice_dict (picked (dict_keys voice_dict) (voice_pick ui))
    = Ok voice →
  speech_create env "tts-1" voice response = Ok speech →
  main env ui w
  = (Ok tt,
     mkWorld (<["speech.wav" := speech]> (delete "Question.wav" files))
       (Some (default [] (session_state w)
              ++ [("You", user_input); ("Bot", response)]))
       (trace w ++ page_head (fs w)
        ++ turn_events audio user_input response voice
             (default [] (session_state w)) (b64encode_str speech))).
Proof.
  intros Hpick Hname Hfile Htext Hretr Hrec Hne Hwhisper Hchain Hvoice
    Hspeech.
  unfold main, selectbox.
  rewrite bind_log, bind_assoc, bind_log, bind_ret, bind_log.
  cbn [get_system_prompts create_prompts].
  unfold bind at 1.
  rewrite (initialize_load_run env ui _ name data text) by done.
  simpl_world. rewrite Hretr.
  rewrite run_chatbot_run, Hrec. destruct audio as [|b audio']; [done|].
  cbv zeta. simpl_world. rewrite Hwhisper.
  cbn [create_prompts fst snd] in Hchain. rewrite Hchain, Hvoice, Hspeech.
  unfold emit, with_fs, page_head, turn_events. simpl_world.
  f_equal. f_equal. rewrite <- !app_assoc. reflexivity.
Qed.

Lemma main_answers_from_selected_collection_witness :
  let audio := String.list_byte_of_string "Where were you?" in
  let answer := "Answer to: Where were you?" in
  main demo_env (ask "Where were you?") sample_world
  = (Ok tt,
     mkWorld (<["speech.wav" := String.list_byte_of_string answer]>
                (delete "Question.wav"
                   (<["Question.wav" := audio]> (fs sample_world))))
       (Some (default [] (session_state sample_world)
              ++ [("You", "Where were you?"); ("Bot", answer)]))
       (trace sample_world ++ page_head (fs sample_world)
        ++ turn_events audio "Where were you?" answer "alloy"
             (default [] (session_state sample_world))
             (b64encode_str (String.list_byte_of_string answer)))).
Proof.
  apply (main_answers_from_selected_collection demo_env
           (ask "Where were you?") sample_world "Sample1.txt" sample_text
           (String.string_of_list_byte sample_text)
           [mkDocument (String.string_of_list_byte sample_text)
              "data/Sample1.txt"]
           (String.list_byte_of_string "Where were you?")
           "Where were you?" "Answer to: Where were you?" "alloy"
           (String.list_byte_of_string "Answer to: Where were you?")
           (<["Question.wav" := String.list_byte_of_string "Where were you?"]>
              (fs sample_world)));
    first [discriminate | reflexivity | vm_compute; reflexivity].
Defined.
